(** * Operating-system detection of the user_agent package

    A shallow embedding of [operating_systems.go]: the Windows NT
    normaliser, the per-engine heuristics, the dispatcher [detectOS] and
    the name/version splitter behind [OSInfo], together with the
    properties of them that the specification states.

    Go strings are byte sequences and are modelled by [string] (a list
    of 8-bit [ascii]).  A Go slice [[]string] is a [list string]; an
    index expression [comment[i]] is the partial lookup [comment !! i],
    whose [None] is Go's run-time panic "index out of range".  Code that
    indexes therefore lives in the [option] monad. *)

From Stdlib Require Import String Ascii ZArith Lia Bool.
From stdpp Require Import base option list.

Local Open Scope string_scope.
Local Open Scope Z_scope.
Local Open Scope nat_scope.

(** Go's [==] on strings. *)
Infix "==" := String.eqb (at level 70, no associativity).

(** ** The part of Go's [strings] package that the file uses *)

Module GoStrings.

(** [s[n:]] and [s[:n]] for [n <= len(s)]. *)
Fixpoint from (n : nat) (s : string) : string :=
  match n, s with
  | 0, _ => s
  | S n', String _ s' => from n' s'
  | S _, EmptyString => EmptyString
  end.

Fixpoint upto (n : nat) (s : string) : string :=
  match n, s with
  | 0, _ => EmptyString
  | S n', String c s' => String c (upto n' s')
  | S _, EmptyString => EmptyString
  end.

Definition HasPrefix (s prefix : string) : bool := String.prefix prefix s.

(** [strings.Index]: position of the first occurrence, [None] for -1. *)
Fixpoint Index (s substr : string) : option nat :=
  if HasPrefix s substr then Some 0
  else match s with
       | EmptyString => None
       | String _ s' => S <$> Index s' substr
       end.

Definition Contains (s substr : string) : bool :=
  match Index s substr with Some _ => true | None => false end.

(** Non-overlapping occurrences of a non-empty [substr]; at most
    [fuel] of them are counted, and [String.length s] always suffices. *)
Fixpoint count_loop (fuel : nat) (s substr : string) : nat :=
  match fuel with
  | 0 => 0
  | S k =>
      match Index s substr with
      | None => 0
      | Some j => S (count_loop k (from (j + String.length substr) s) substr)
      end
  end.

(** [strings.Count]; for the empty [substr] the library counts runes,
    which coincides with bytes on ASCII text. *)
Definition Count (s substr : string) : nat :=
  if substr == "" then S (String.length s)
  else count_loop (String.length s) s substr.

(** The loop of [genSplit]: at most [k] cuts, the rest is the last
    element. *)
Fixpoint split_loop (k : nat) (s sep : string) : list string :=
  match k with
  | 0 => [s]
  | S k' =>
      match Index s sep with
      | None => [s]
      | Some m => upto m s :: split_loop k' (from (m + String.length sep) s) sep
      end
  end.

(** [explode] on ASCII text: one string per byte, the last one holding
    the remainder when [k] runs out. *)
Fixpoint explode (k : nat) (s : string) : list string :=
  match s with
  | EmptyString => []
  | String c s' =>
      match k with
      | 0 => [s]
      | S k' => String c EmptyString :: explode k' s'
      end
  end.

(** [genSplit(s, sep, 0, n)]. *)
Definition genSplit (s sep : string) (n : Z) : list string :=
  if (n =? 0)%Z then []
  else if sep == "" then
    explode (if (n <? 0)%Z then String.length s else Z.to_nat n - 1) s
  else
    let n := if (n <? 0)%Z then S (Count s sep) else Z.to_nat n in
    let n := Nat.min n (S (String.length s)) in
    split_loop (n - 1) s sep.

Definition SplitN (s sep : string) (n : Z) : list string := genSplit s sep n.

Definition Split (s sep : string) : list string := genSplit s sep (-1).

Fixpoint Join (elems : list string) (sep : string) : string :=
  match elems with
  | [] => ""
  | [e] => e
  | e :: rest => (e ++ sep ++ Join rest sep)%string
  end.

Fixpoint replace_loop (k : nat) (s old new : string) : string :=
  match k with
  | 0 => s
  | S k' =>
      match Index s old with
      | None => s
      | Some j =>
          (upto j s ++ new ++ replace_loop k' (from (j + String.length old) s) old new)%string
      end
  end.

(** [strings.Replace] for a non-empty [old], which is how the file
    calls it; the rune-boundary insertion that the library performs
    for an empty [old] is left out (the string is returned as it is). *)
Definition Replace (s old new : string) (n : Z) : string :=
  if (old == new) || (n =? 0)%Z || (old == "") then s
  else
    let m := Count s old in
    if (m =? 0) then s
    else
      let n := if (n <? 0)%Z || (m <? Z.to_nat n) then m else Z.to_nat n in
      replace_loop n s old new.

Fixpoint mem (c : ascii) (cutset : string) : bool :=
  match cutset with
  | EmptyString => false
  | String d rest => (c =? d)%char || mem c rest
  end.

Fixpoint TrimLeft (s cutset : string) : string :=
  match s with
  | EmptyString => EmptyString
  | String c s' => if mem c cutset then TrimLeft s' cutset else s
  end.

Fixpoint TrimRight (s cutset : string) : string :=
  match s with
  | EmptyString => EmptyString
  | String c s' =>
      let r := TrimRight s' cutset in
      if (r == "") && mem c cutset then EmptyString else String c r
  end.

(** [strings.Trim] with an ASCII [cutset]. *)
Definition Trim (s cutset : string) : string :=
  TrimRight (TrimLeft s cutset) cutset.

Definition is_upper (c : ascii) : bool :=
  let n := nat_of_ascii c in (65 <=? n) && (n <=? 90).

Definition lower (c : ascii) : ascii :=
  if is_upper c then ascii_of_nat (nat_of_ascii c + 32) else c.

(** [strings.EqualFold] against an ASCII [t], which is how the file
    calls it.  Bytes fold by ASCII case.  Two runes outside ASCII have
    an ASCII letter in their simple case-folding orbit and are
    accepted where [t] has that letter: U+017F (bytes C5 BF) for
    [s]/[S], and U+212A (bytes E2 84 AA) for [k]/[K]. *)
Fixpoint EqualFold (s t : string) : bool :=
  match t with
  | EmptyString => match s with EmptyString => true | _ => false end
  | String d t' =>
      match s with
      | EmptyString => false
      | String c s' =>
          if (lower c =? lower d)%char then EqualFold s' t'
          else
            match s' with
            | String c1 s1 =>
                if (lower d =? "s")%char && (c =? "197")%char && (c1 =? "191")%char
                then EqualFold s1 t'
                else
                  match s1 with
                  | String c2 s2 =>
                      if (lower d =? "k")%char && (c =? "226")%char
                         && (c1 =? "132")%char && (c2 =? "170")%char
                      then EqualFold s2 t'
                      else false
                  | EmptyString => false
                  end
            | EmptyString => false
            end
      end
  end.

End GoStrings.

Import GoStrings.

(** ** Normalisation of Windows NT names *)

Definition normalizeOS (name : string) : string :=
  match SplitN name " " 3 with
  | [_; sp1; sp2] =>
      if negb (sp1 == "NT") then name
      else if sp2 == "5.0" then "Windows 2000"
      else if sp2 == "5.01" then "Windows 2000, Service Pack 1 (SP1)"
      else if sp2 == "5.1" then "Windows XP"
      else if sp2 == "5.2" then "Windows XP x64 Edition"
      else if sp2 == "6.0" then "Windows Vista"
      else if sp2 == "6.1" then "Windows 7"
      else if sp2 == "6.2" then "Windows 8"
      else if sp2 == "6.3" then "Windows 8.1"
      else if sp2 == "10.0" then "Windows 10"
      else name
  | _ => name
  end.

(** ** Data model *)

(** Modelled from the spec: the declarations of [Browser], [section] and
    [UserAgent] are outside [operating_systems.go].  The records hold
    the fields that this file reads or writes, under the names the code
    uses for them. *)
Module Browser.
Record t := mk { Engine : string; Name : string; Version : string }.
End Browser.

(** Modelled from the spec: a section of the user-agent string, with its
    name, its version and the tokens of its comment. *)
Record section := mk_section {
  name : string;
  version : string;
  comment : list string
}.

(** Modelled from the spec: the result record, which [detectOS] and the
    heuristics update through a pointer; here it is passed and
    returned. *)
Record UserAgent := mk_UserAgent {
  platform : string;
  os : string;
  localization : string;
  model : string;
  browser : Browser.t;
  mobile : bool;
  undecided : bool
}.

(** The struct [OSInfo] of the source. *)
Module OSInfo.
Record t := mk { FullName : string; Name : string; Version : string }.
End OSInfo.

(** Field assignments [p.f = v]. *)
Definition set_platform (v : string) (p : UserAgent) : UserAgent :=
  mk_UserAgent v (os p) (localization p) (model p) (browser p) (mobile p) (undecided p).
Definition set_os (v : string) (p : UserAgent) : UserAgent :=
  mk_UserAgent (platform p) v (localization p) (model p) (browser p) (mobile p) (undecided p).
Definition set_localization (v : string) (p : UserAgent) : UserAgent :=
  mk_UserAgent (platform p) (os p) v (model p) (browser p) (mobile p) (undecided p).
Definition set_mobile (v : bool) (p : UserAgent) : UserAgent :=
  mk_UserAgent (platform p) (os p) (localization p) (model p) (browser p) v (undecided p).
Definition set_undecided (v : bool) (p : UserAgent) : UserAgent :=
  mk_UserAgent (platform p) (os p) (localization p) (model p) (browser p) (mobile p) v.
Definition set_browser_Name (v : string) (p : UserAgent) : UserAgent :=
  mk_UserAgent (platform p) (os p) (localization p) (model p)
    (Browser.mk (Browser.Engine (browser p)) v (Browser.Version (browser p)))
    (mobile p) (undecided p).
Definition set_browser_Version (v : string) (p : UserAgent) : UserAgent :=
  mk_UserAgent (platform p) (os p) (localization p) (model p)
    (Browser.mk (Browser.Engine (browser p)) (Browser.Name (browser p)) v)
    (mobile p) (undecided p).

(** ** Platform extractor *)

Definition getPlatform (comment : list string) : option string :=
  if 0 <? length comment then
    c0 ← comment !! 0;
    if negb (c0 == "compatible") then
      if HasPrefix c0 "Windows" then Some "Windows"
      else if HasPrefix c0 "Symbian" then Some "Symbian"
      else if HasPrefix c0 "webOS" then Some "webOS"
      else if c0 == "BB10" then Some "BlackBerry"
      else Some c0
    else Some ""
  else Some "".

(** ** Engine heuristics

    Each heuristic takes the record and the comment of the first section
    and returns the updated record, or [None] where the Go code would
    panic on an index.  A slice element that the code reads several
    times on one path is looked up where it is read first. *)

(** The [for _, c := range comment] loop of [webkit], left at the first
    token that holds "wv". *)
Fixpoint webkit_wv (p : UserAgent) (comment : list string) : UserAgent :=
  match comment with
  | [] => p
  | c :: rest =>
      if (c == "wv") || Contains c "wv" then
        let p := set_mobile true p in
        if Contains (Browser.Name (browser p)) "Chrome"
        then set_browser_Name "Chrome WebView" p
        else set_browser_Name "Android WebView" p
      else webkit_wv p rest
  end.

Definition webkit (p : UserAgent) (comment : list string) : option UserAgent :=
  p ← (if platform p == "" then
         pl ← getPlatform comment; Some (set_platform pl p)
       else Some p);
  p ← (if (os p == "") && (1 <? length comment) then
         c1 ← comment !! 1; Some (set_os (normalizeOS c1) p)
       else Some p);
  Some (webkit_wv p comment).

Definition gecko (p : UserAgent) (comment : list string) : option UserAgent :=
  if 1 <? length comment then
    c1 ← comment !! 1;
    p ← (if (c1 == "U") || (c1 == "arm_64") then
           if 2 <? length comment then
             c2 ← comment !! 2; Some (set_os (normalizeOS c2) p)
           else Some (set_os (normalizeOS c1) p)
         else if Contains (platform p) "Android" then
           Some (set_os (platform p)
                   (set_platform (normalizeOS c1) (set_mobile true p)))
         else
           c0 ← comment !! 0;
           if (c0 == "Mobile") || (c0 == "Tablet") then
             Some (set_os "FirefoxOS" (set_mobile true p))
           else if os p == "" then Some (set_os (normalizeOS c1) p)
           else Some p);
    if 3 <? length comment then
      c3 ← comment !! 3;
      if negb (HasPrefix c3 "rv:") then Some (set_localization c3 p) else Some p
    else Some p
  else Some p.

(** The [for _, v := range comment] loop of [trident], which returns at
    the first token that starts with "IEMobile". *)
Fixpoint trident_mobile (p : UserAgent) (comment : list string) : UserAgent :=
  match comment with
  | [] => p
  | v :: rest =>
      if HasPrefix v "IEMobile" then set_mobile true p
      else trident_mobile p rest
  end.

Definition trident (p : UserAgent) (comment : list string) : option UserAgent :=
  let p := set_platform "Windows" p in
  p ← (if os p == "" then
         if 2 <? length comment then
           c2 ← comment !! 2; Some (set_os (normalizeOS c2) p)
         else Some (set_os "Windows NT 4.0" p)
       else Some p);
  Some (trident_mobile p comment).

Definition opera (p : UserAgent) (comment : list string) : option UserAgent :=
  let slen := length comment in
  c0 ← comment !! 0;
  if HasPrefix c0 "Windows" then
    let p := set_os (normalizeOS c0) (set_platform "Windows" p) in
    if 2 <? slen then
      mra ← (if 3 <? slen then c2 ← comment !! 2; Some (HasPrefix c2 "MRA")
             else Some false);
      if mra : bool then
        c3 ← comment !! 3; Some (set_localization c3 p)
      else
        c2 ← comment !! 2; Some (set_localization c2 p)
    else Some p
  else
    let p := if HasPrefix c0 "Android" then set_mobile true p else p in
    let p := set_platform c0 p in
    if 1 <? slen then
      c1 ← comment !! 1;
      let p := set_os c1 p in
      if 3 <? slen then
        c3 ← comment !! 3; Some (set_localization c3 p)
      else Some p
    else Some (set_os c0 p).

Definition dalvik (p : UserAgent) (comment : list string) : option UserAgent :=
  let slen := length comment in
  c0 ← comment !! 0;
  if HasPrefix c0 "Linux" then
    let p := set_platform c0 p in
    p ← (if 2 <? slen then c2 ← comment !! 2; Some (set_os c2 p) else Some p);
    Some (set_mobile true p)
  else Some p.

(** ** Dispatcher *)

(** The [for _, sec := range sections] loop of the AppleWebKit case,
    left at the first section named "Chrome" or "Version". *)
Fixpoint browser_of_sections (p : UserAgent) (sections : list section) : UserAgent :=
  match sections with
  | [] => p
  | sec :: rest =>
      if EqualFold (name sec) "Chrome" then
        set_browser_Version (version sec) (set_browser_Name "Chrome" p)
      else if EqualFold (name sec) "Version" then
        set_browser_Version (version sec) (set_browser_Name "Android WebView" p)
      else browser_of_sections p rest
  end.

Definition detectOS (p : UserAgent) (sections : list section) : option UserAgent :=
  if length sections =? 0 then Some p
  else
    s ← sections !! 0;
    if name s == "Mozilla" then
      pl ← getPlatform (comment s);
      let p := set_platform pl p in
      p ← (if (platform p == "Windows") && (0 <? length (comment s)) then
             c0 ← comment s !! 0; Some (set_os (normalizeOS c0) p)
           else Some p);
      let engine := Browser.Engine (browser p) in
      if engine == "" then Some (set_undecided true p)
      else if engine == "Gecko" then gecko p (comment s)
      else if engine == "AppleWebKit" then
        p ← webkit p (comment s);
        Some (browser_of_sections p sections)
      else if engine == "Trident" then trident p (comment s)
      else Some p
    else if name s == "Opera" then
      if 0 <? length (comment s) then opera p (comment s) else Some p
    else if name s == "Dalvik" then
      if 0 <? length (comment s) then dalvik p (comment s) else Some p
    else if name s == "okhttp" then
      Some (set_browser_Version (version s)
              (set_browser_Name "OkHttp" (set_mobile true p)))
    else Some (set_undecided true p).

(** ** Name and version of the operating system *)

(** [l[i]] and [l[:hi]] with a signed index, as [len(l)-1] can be -1. *)
Definition at_Z (l : list string) (i : Z) : option string :=
  if (i <? 0)%Z then None else l !! Z.to_nat i.

Definition slice_to (l : list string) (hi : Z) : option (list string) :=
  if (hi <? 0)%Z || (Z.of_nat (length l) <? hi)%Z then None
  else Some (take (Z.to_nat hi) l).

Definition osName (osSplit : list string) : option (string * string) :=
  if length osSplit =? 1 then
    c0 ← osSplit !! 0; Some (c0, "")
  else
    let n := Z.of_nat (length osSplit) in
    nameSplit ← slice_to osSplit (n - 1);
    version ← at_Z osSplit (n - 1);
    intel ← (if 2 <=? length nameSplit then
               n0 ← nameSplit !! 0;
               if n0 == "Intel" then n1 ← nameSplit !! 1; Some (n1 == "Mac")
               else Some false
             else Some false);
    let nameSplit := if intel : bool then drop 1 nameSplit else nameSplit in
    let name := Join nameSplit " " in
    if Contains version "x86" || Contains version "i686" then Some (name, "")
    else if (version == "X") && (name == "Mac OS") then
      Some ((name ++ " " ++ version)%string, "")
    else Some (name, version).

Definition OSInfo (p : UserAgent) : option OSInfo.t :=
  let os_ := Replace (os p) "like Mac OS X" "" 1 in
  let os_ := Replace os_ "CPU" "" 1 in
  let os_ := Trim os_ " " in
  let osSplit := Split os_ " " in
  osSplit ← (if os_ == "Windows XP x64 Edition" then
               slice_to osSplit (Z.of_nat (length osSplit) - 2)
             else Some osSplit);
  '(name, version) ← osName osSplit;
  '(name, version) ← (if Contains name "/" then
                        let s := Split name "/" in
                        s0 ← s !! 0; s1 ← s !! 1; Some (s0, s1)
                      else Some (name, version));
  let version := Replace version "_" "." (-1) in
  Some (OSInfo.mk (os p) name version).

(** ** Accessors *)

Definition Platform (p : UserAgent) : string := platform p.
Definition OS (p : UserAgent) : string := os p.
Definition Localization (p : UserAgent) : string := localization p.
Definition Model (p : UserAgent) : string := model p.

(** ** Auxiliary definitions for the statements *)

(** The table of the specification (section 4.3): marketing name of a
    known NT version token.  The entry for 5.01 is the string that
    [normalizeOS] returns. *)
Definition nt_marketing_name (version : string) : option string :=
  if version == "5.0" then Some "Windows 2000"
  else if version == "5.01" then Some "Windows 2000, Service Pack 1 (SP1)"
  else if version == "5.1" then Some "Windows XP"
  else if version == "5.2" then Some "Windows XP x64 Edition"
  else if version == "6.0" then Some "Windows Vista"
  else if version == "6.1" then Some "Windows 7"
  else if version == "6.2" then Some "Windows 8"
  else if version == "6.3" then Some "Windows 8.1"
  else if version == "10.0" then Some "Windows 10"
  else None.

(** A record with every field at Go's zero value but for the browser. *)
Definition blank (engine browser_name : string) : UserAgent :=
  mk_UserAgent "" "" "" "" (Browser.mk engine browser_name "") false false.

(** The tests of the two scanning loops. *)
Definition is_wv (c : string) : bool := (c == "wv") || Contains c "wv".
Definition is_IEMobile (v : string) : bool := HasPrefix v "IEMobile".
(** What the loop of [webkit] does to the record at a token that holds
    "wv". *)
Definition mark_webview (p : UserAgent) : UserAgent :=
  if Contains (Browser.Name (browser p)) "Chrome"
  then set_browser_Name "Chrome WebView" (set_mobile true p)
  else set_browser_Name "Android WebView" (set_mobile true p).

(** The record as the "Mozilla" branch of [detectOS] has it when it
    reaches the switch on the engine, [pl] being the platform that
    [getPlatform] found. *)
Definition fill_from_comment
    (pl : string) (comment : list string) (p : UserAgent) : UserAgent :=
  match comment with
  | c0 :: _ =>
      if pl == "Windows" then set_os (normalizeOS c0) (set_platform pl p)
      else set_platform pl p
  | [] => set_platform pl p
  end.

(** What no heuristic writes: the model, the engine and the undecided
    flag; and the mobile flag is raised at most. *)
Definition frame (p p' : UserAgent) : Prop :=
  model p' = model p
  /\ Browser.Engine (browser p') = Browser.Engine (browser p)
  /\ undecided p' = undecided p
  /\ (mobile p = true -> mobile p' = true).

(** Every byte [a] of a string replaced by [b], and the number of
    bytes [a] in a string: what [Replace] with a negative count computes
    for one-byte strings. *)
Fixpoint subst_byte (a b : ascii) (s : string) : string :=
  match s with
  | EmptyString => EmptyString
  | String c s' => String (if (c =? a)%char then b else c) (subst_byte a b s')
  end.

Fixpoint occurrences (a : ascii) (s : string) : nat :=
  match s with
  | EmptyString => 0
  | String c s' => (if (c =? a)%char then 1 else 0) + occurrences a s'
  end.

Definition names_browser (sec : section) : bool :=
  EqualFold (name sec) "Chrome" || EqualFold (name sec) "Version".

(** ** Facts about the string functions *)

Section StringFacts.

Lemma HasPrefix_space (c : ascii) (s : string) :
  HasPrefix (String c s) " " = (c =? " ")%char.
Proof.
  unfold HasPrefix. cbn [String.prefix].
  destruct (ascii_dec " " c) as [<-|Hne].
  - rewrite Ascii.eqb_refl. destruct s; reflexivity.
  - symmetry. apply Ascii.eqb_neq. congruence.
Qed.

Lemma Index_space_cons (c : ascii) (s : string) :
  Index (String c s) " " =
  if (c =? " ")%char then Some 0 else S <$> Index s " ".
Proof. cbn [Index]. rewrite HasPrefix_space. reflexivity. Qed.

Lemma Index_space_nil : Index "" " " = None.
Proof. reflexivity. Qed.

(** Cutting at the first space gives back the string, and the part
    before the cut holds no space. *)
Lemma Index_space_Some (s : string) (m : nat) :
  Index s " " = Some m ->
  s = (upto m s ++ " " ++ from (m + 1) s)%string
  /\ Contains (upto m s) " " = false.
Proof.
  revert m. induction s as [|c s IH]; intros m H.
  - discriminate.
  - rewrite Index_space_cons in H.
    destruct (Ascii.eqb_spec c " ") as [->|Hne].
    + injection H as <-. split; reflexivity.
    + destruct (Index s " ") as [k|] eqn:Hk; [|discriminate].
      injection H as <-. destruct (IH k eq_refl) as [Hs Hc].
      split.
      * cbn [upto from Nat.add append]. f_equal. exact Hs.
      * cbn [upto]. unfold Contains in *. rewrite Index_space_cons.
        destruct (Ascii.eqb_spec c " "); [contradiction|].
        destruct (Index (upto k s) " "); [discriminate | reflexivity].
Qed.

Lemma Index_space_app (x r : string) :
  Contains x " " = false ->
  Index (x ++ " " ++ r) " " = Some (String.length x).
Proof.
  change (" " ++ r)%string with (String " " r).
  induction x as [|c x IH]; intros H.
  - cbn [append String.length]. now rewrite Index_space_cons.
  - unfold Contains in H. rewrite Index_space_cons in H.
    cbn [append String.length]. rewrite Index_space_cons.
    destruct (c =? " ")%char; [discriminate|].
    rewrite IH; [reflexivity|].
    unfold Contains. destruct (Index x " "); [discriminate | reflexivity].
Qed.

Lemma upto_app (x r : string) : upto (String.length x) (x ++ r) = x.
Proof. induction x as [|c x IH]; cbn; [destruct r; reflexivity | now rewrite IH]. Qed.

Lemma from_app (x r : string) : from (String.length x) (x ++ r) = r.
Proof. induction x as [|c x IH]; cbn; [reflexivity | exact IH]. Qed.

Lemma from_app_space (x r : string) :
  from (String.length x + 1) (x ++ " " ++ r) = r.
Proof. induction x as [|c x IH]; cbn; [reflexivity | exact IH]. Qed.

Lemma length_app (x r : string) :
  String.length (x ++ r) = String.length x + String.length r.
Proof. induction x as [|c x IH]; cbn; [reflexivity | now rewrite IH]. Qed.

Lemma split_loop_length (k : nat) (s sep : string) :
  length (split_loop k s sep) <= S k.
Proof.
  revert s. induction k as [|k IH]; intros s; cbn [split_loop].
  - cbn. lia.
  - destruct (Index s sep); cbn [length]; [|lia].
    specialize (IH (from (n + String.length sep) s)). lia.
Qed.

Lemma split_loop_2_shape (s a b c : string) :
  split_loop 2 s " " = [a; b; c] <->
  s = (a ++ " " ++ b ++ " " ++ c)%string
  /\ Contains a " " = false /\ Contains b " " = false.
Proof.
  cbn [split_loop String.length]. split.
  - destruct (Index s " ") as [m|] eqn:Hm; [|discriminate].
    destruct (Index_space_Some _ _ Hm) as [Hs Ha].
    destruct (Index (from (m + 1) s) " ") as [k|] eqn:Hk; [|discriminate].
    destruct (Index_space_Some _ _ Hk) as [Hr Hb].
    intros [= <- <- <-]. repeat split; [|assumption..].
    rewrite <- Hr. exact Hs.
  - intros (-> & Ha & Hb).
    rewrite (Index_space_app a _ Ha), upto_app, from_app_space.
    rewrite (Index_space_app b _ Hb), upto_app, from_app_space.
    reflexivity.
Qed.

Lemma SplitN_space_3 (name : string) :
  SplitN name " " 3 =
  split_loop (Nat.min 3 (S (String.length name)) - 1) name " ".
Proof. reflexivity. Qed.

(** [SplitN name " " 3] has three parts exactly when [name] has two
    spaces at least; the first two parts are then free of spaces and
    the third is the unsplit remainder. *)
Lemma SplitN_space_3_shape (name a b c : string) :
  SplitN name " " 3 = [a; b; c] <->
  name = (a ++ " " ++ b ++ " " ++ c)%string
  /\ Contains a " " = false /\ Contains b " " = false.
Proof.
  rewrite SplitN_space_3. split.
  - intros H. apply split_loop_2_shape.
    destruct (String.length name) as [|[|n]];
      cbn [Nat.min Nat.sub] in H; try exact H;
      match type of H with
      | split_loop ?k _ _ = _ => pose proof (split_loop_length k name " ") as Hl
      end;
      rewrite H in Hl; cbn in Hl; lia.
  - intros (-> & Ha & Hb).
    rewrite !length_app. cbn [String.length].
    replace (Nat.min 3 _ - 1) with 2 by lia.
    apply split_loop_2_shape. auto.
Qed.

End StringFacts.

(** ** The normaliser *)

Section Normalize.

Lemma normalizeOS_split (name a b c : string) :
  SplitN name " " 3 = [a; b; c] ->
  normalizeOS name =
  if b == "NT" then default name (nt_marketing_name c) else name.
Proof.
  intros H. unfold normalizeOS, nt_marketing_name. rewrite H.
  destruct (b == "NT"); cbn [negb]; [|reflexivity].
  repeat (match goal with |- context [?v == ?l] => destruct (v == l) end;
          try reflexivity).
Qed.

Lemma normalizeOS_other (name : string) :
  (forall a b c, SplitN name " " 3 <> [a; b; c]) -> normalizeOS name = name.
Proof.
  intros H. unfold normalizeOS.
  destruct (SplitN name " " 3) as [|a [|b [|c [|d l]]]]; try reflexivity.
  now destruct (H a b c).
Qed.

Lemma normalizeOS_shape (x v : string) :
  Contains x " " = false ->
  normalizeOS (x ++ " NT " ++ v) =
  default (x ++ " NT " ++ v)%string (nt_marketing_name v).
Proof.
  intros Hx.
  rewrite (normalizeOS_split _ x "NT" v); [reflexivity|].
  apply SplitN_space_3_shape.
  split; [reflexivity | split; [assumption | reflexivity]].
Qed.

Lemma normalizeOS_changed (name : string) :
  normalizeOS name <> name ->
  exists x v w, name = (x ++ " NT " ++ v)%string
                /\ Contains x " " = false
                /\ nt_marketing_name v = Some w /\ normalizeOS name = w.
Proof.
  intros Hne.
  destruct (SplitN name " " 3) as [|a [|b [|c [|d l]]]] eqn:Hs;
    try (exfalso; apply Hne, normalizeOS_other; intros ? ? ?; congruence).
  rewrite (normalizeOS_split _ _ _ _ Hs) in Hne |- *.
  apply SplitN_space_3_shape in Hs as (Hn & Ha & _).
  destruct (String.eqb_spec b "NT") as [->|]; [|contradiction].
  destruct (nt_marketing_name c) as [w|] eqn:Hw; [|contradiction].
  exists a, c, w. auto.
Qed.

End Normalize.

(** ** The heuristics never panic *)

#[local] Arguments normalizeOS : simpl never.
#[local] Arguments HasPrefix : simpl never.
#[local] Arguments Contains : simpl never.
#[local] Arguments EqualFold : simpl never.
#[local] Arguments String.eqb : simpl never.

(** Case analysis on every test and lookup of a goal about a result. *)
Ltac split_tests :=
  repeat first
    [ progress simpl
    | progress rewrite ?andb_false_r, ?andb_true_r
    | match goal with
      | |- is_Some (Some _) => eexists; reflexivity
      | |- context [if ?b then _ else _] => destruct b eqn:?
      | |- context [match ?x with _ => _ end] => destruct x eqn:?
      end ].

Section Totality.

Lemma getPlatform_total (comment : list string) :
  is_Some (getPlatform comment).
Proof. unfold getPlatform. destruct comment as [|c0 rest]; split_tests. Qed.

Lemma webkit_total (p : UserAgent) (comment : list string) :
  is_Some (webkit p comment).
Proof.
  unfold webkit. destruct (getPlatform_total comment) as [pl ->].
  destruct comment as [|c0 [|c1 rest]]; split_tests.
Qed.

Lemma gecko_total (p : UserAgent) (comment : list string) :
  is_Some (gecko p comment).
Proof.
  unfold gecko.
  destruct comment as [|c0 [|c1 [|c2 [|c3 rest]]]]; split_tests.
Qed.

Lemma trident_total (p : UserAgent) (comment : list string) :
  is_Some (trident p comment).
Proof.
  unfold trident. destruct comment as [|c0 [|c1 [|c2 rest]]]; split_tests.
Qed.

Lemma opera_total (p : UserAgent) (comment : list string) :
  0 < length comment -> is_Some (opera p comment).
Proof.
  unfold opera.
  destruct comment as [|c0 [|c1 [|c2 [|c3 rest]]]]; [simpl; lia|..];
    intros _; split_tests.
Qed.

Lemma dalvik_total (p : UserAgent) (comment : list string) :
  0 < length comment -> is_Some (dalvik p comment).
Proof.
  unfold dalvik.
  destruct comment as [|c0 [|c1 [|c2 rest]]]; [simpl; lia|..];
    intros _; split_tests.
Qed.

Lemma detectOS_total (p : UserAgent) (sections : list section) :
  is_Some (detectOS p sections).
Proof.
  destruct sections as [|[n v cm] rest]; [eexists; reflexivity|].
  unfold detectOS. simpl.
  destruct (getPlatform_total cm) as [pl ->].
  destruct (n == "Mozilla").
  - simpl.
    assert (Hos : is_Some
              (if (pl == "Windows") && (0 <? length cm)
               then c0 ← cm !! 0; Some (set_os (normalizeOS c0) (set_platform pl p))
               else Some (set_platform pl p))).
    { destruct cm; split_tests. }
    destruct Hos as [q ->]. simpl.
    destruct (_ == ""); [eexists; reflexivity|].
    destruct (_ == "Gecko"); [apply gecko_total|].
    destruct (_ == "AppleWebKit").
    { destruct (webkit_total q cm) as [r ->]. eexists; reflexivity. }
    destruct (_ == "Trident"); [apply trident_total|].
    eexists; reflexivity.
  - destruct (n == "Opera").
    { destruct (0 <? length cm) eqn:Hl; [|eexists; reflexivity].
      apply opera_total, Nat.ltb_lt, Hl. }
    destruct (n == "Dalvik").
    { destruct (0 <? length cm) eqn:Hl; [|eexists; reflexivity].
      apply dalvik_total, Nat.ltb_lt, Hl. }
    destruct (n == "okhttp"); eexists; reflexivity.
Qed.

End Totality.

(** ** The scanning loops *)

Section Scans.

Lemma webkit_wv_spec (q : UserAgent) (comment : list string) :
  webkit_wv q comment =
  if existsb is_wv comment then mark_webview q else q.
Proof.
  induction comment as [|c rest IH]; [reflexivity|].
  cbn [webkit_wv existsb]. fold (is_wv c).
  destruct (is_wv c); [reflexivity | exact IH].
Qed.

Lemma trident_mobile_spec (q : UserAgent) (comment : list string) :
  trident_mobile q comment =
  if existsb is_IEMobile comment then set_mobile true q else q.
Proof.
  induction comment as [|v rest IH]; [reflexivity|].
  cbn [trident_mobile existsb]. fold (is_IEMobile v).
  destruct (is_IEMobile v); [reflexivity | exact IH].
Qed.

(** Both loops are decided by the first matching token: what follows
    it is not looked at. *)
Lemma webkit_wv_first (q : UserAgent) (pre post : list string) (c : string) :
  existsb is_wv pre = false -> is_wv c = true ->
  webkit_wv q (pre ++ c :: post) = mark_webview q.
Proof.
  intros Hpre Hc. induction pre as [|d pre IH]; cbn [app webkit_wv].
  - fold (is_wv c). now rewrite Hc.
  - cbn [existsb] in Hpre. apply orb_false_iff in Hpre as [Hd Hpre].
    fold (is_wv d). rewrite Hd. exact (IH Hpre).
Qed.

Lemma trident_mobile_first (q : UserAgent) (pre post : list string) (v : string) :
  existsb is_IEMobile pre = false -> is_IEMobile v = true ->
  trident_mobile q (pre ++ v :: post) = set_mobile true q.
Proof.
  intros Hpre Hv. induction pre as [|d pre IH]; cbn [app trident_mobile].
  - fold (is_IEMobile v). now rewrite Hv.
  - cbn [existsb] in Hpre. apply orb_false_iff in Hpre as [Hd Hpre].
    fold (is_IEMobile d). rewrite Hd. exact (IH Hpre).
Qed.

(** [webkit] is its scan applied to a record that differs from the
    given one in platform and os at most. *)
Lemma webkit_eq (p : UserAgent) (comment : list string) :
  exists q, webkit p comment = Some (webkit_wv q comment)
            /\ browser q = browser p /\ mobile q = mobile p
            /\ undecided q = undecided p
            /\ (os p <> "" -> os q = os p).
Proof.
  unfold webkit. destruct (getPlatform_total comment) as [pl ->].
  generalize webkit_wv. intros scan.
  destruct (String.eqb_spec (os p) "") as [He|Hne].
  - destruct comment as [|c0 [|c1 rest]];
      destruct (platform p == ""); simpl; rewrite He; simpl;
      eexists; (split; [reflexivity|]); repeat split; simpl; congruence.
  - assert (Hos : forall v, (os (set_platform v p) == "") = false)
      by (intros v; now apply String.eqb_neq).
    apply String.eqb_neq in Hne.
    destruct (platform p == ""); simpl; rewrite ?Hos, ?Hne; simpl;
      eexists; (split; [reflexivity|]); repeat split; reflexivity.
Qed.

Lemma trident_eq (p : UserAgent) (comment : list string) :
  trident p comment =
  Some (trident_mobile
          (if os p == "" then
             set_os (match comment !! 2 with
                     | Some c2 => normalizeOS c2
                     | None => "Windows NT 4.0"
                     end) (set_platform "Windows" p)
           else set_platform "Windows" p) comment).
Proof.
  unfold trident.
  destruct comment as [|c0 [|c1 [|c2 rest]]]; simpl;
    destruct (os p == ""); reflexivity.
Qed.

Lemma trident_mobile_fields (q : UserAgent) (comment : list string) :
  platform (trident_mobile q comment) = platform q
  /\ os (trident_mobile q comment) = os q.
Proof.
  rewrite trident_mobile_spec. destruct (existsb _ _); split; reflexivity.
Qed.

Lemma webkit_wv_os (q : UserAgent) (comment : list string) :
  os (webkit_wv q comment) = os q.
Proof.
  rewrite webkit_wv_spec. unfold mark_webview.
  destruct (existsb _ _); [destruct (Contains _ _)|]; reflexivity.
Qed.

End Scans.

(** ** The dispatcher *)

Section Dispatch.

Lemma browser_of_sections_spec (q : UserAgent) (sections : list section) :
  browser_of_sections q sections =
  match find names_browser sections with
  | Some sec =>
      set_browser_Version (version sec)
        (set_browser_Name
           (if EqualFold (name sec) "Chrome" then "Chrome" else "Android WebView")
           q)
  | None => q
  end.
Proof.
  induction sections as [|sec rest IH]; [reflexivity|].
  cbn [browser_of_sections find]. unfold names_browser at 1.
  destruct (EqualFold (name sec) "Chrome") eqn:Hc; cbn [orb].
  - now rewrite Hc.
  - destruct (EqualFold (name sec) "Version"); [now rewrite Hc | exact IH].
Qed.

Lemma browser_of_sections_os (q : UserAgent) (sections : list section) :
  os (browser_of_sections q sections) = os q.
Proof.
  rewrite browser_of_sections_spec. destruct (find _ _); reflexivity.
Qed.

(** The "Mozilla" branch: platform and os from the comment, then the
    switch on the engine. *)
Lemma detectOS_Mozilla (p : UserAgent) (s : section) (rest : list section) :
  name s = "Mozilla" ->
  exists pl,
    getPlatform (comment s) = Some pl
    /\ detectOS p (s :: rest) =
       let p0 := fill_from_comment pl (comment s) p in
       let engine := Browser.Engine (browser p) in
       if engine == "" then Some (set_undecided true p0)
       else if engine == "Gecko" then gecko p0 (comment s)
       else if engine == "AppleWebKit" then
         q ← webkit p0 (comment s); Some (browser_of_sections q (s :: rest))
       else if engine == "Trident" then trident p0 (comment s)
       else Some p0.
Proof.
  intros Hn. destruct s as [n v cm]. simpl in Hn. subst n.
  destruct (getPlatform_total cm) as [pl Hpl]. exists pl.
  split; [exact Hpl|].
  unfold detectOS. simpl. rewrite Hpl. simpl.
  destruct cm as [|c0 cm]; simpl.
  - rewrite andb_false_r. reflexivity.
  - rewrite andb_true_r. destruct (pl == "Windows"); reflexivity.
Qed.

Lemma detectOS_other_name (p : UserAgent) (s : section) (rest : list section) :
  name s <> "Mozilla" -> name s <> "Opera" -> name s <> "Dalvik" ->
  name s <> "okhttp" ->
  detectOS p (s :: rest) = Some (set_undecided true p).
Proof.
  intros H1 H2 H3 H4. unfold detectOS. simpl.
  apply String.eqb_neq in H1, H2, H3, H4. now rewrite H1, H2, H3, H4.
Qed.

End Dispatch.

(** ** Which writes of the os are guarded *)

Section WriteOnce.

Lemma webkit_keeps_os (p : UserAgent) (comment : list string) :
  os p <> "" -> exists p', webkit p comment = Some p' /\ os p' = os p.
Proof.
  intros Hos. destruct (webkit_eq p comment) as [q [-> (_ & _ & _ & Hq)]].
  eexists. split; [reflexivity|]. rewrite webkit_wv_os. auto.
Qed.

Lemma trident_keeps_os (p : UserAgent) (comment : list string) :
  os p <> "" -> exists p', trident p comment = Some p' /\ os p' = os p.
Proof.
  intros Hos. rewrite trident_eq. eexists. split; [reflexivity|].
  apply String.eqb_neq in Hos. rewrite Hos.
  now destruct (trident_mobile_fields (set_platform "Windows" p) comment).
Qed.

(** Only the last branch of [gecko] tests the os; it is reached when
    the second token is neither "U" nor "arm_64", the platform does
    not hold "Android" and the first token is neither "Mobile" nor
    "Tablet". *)
Lemma gecko_keeps_os (p : UserAgent) (comment : list string) :
  os p <> "" ->
  (forall c1, comment !! 1 = Some c1 -> c1 <> "U" /\ c1 <> "arm_64") ->
  Contains (platform p) "Android" = false ->
  (forall c0, comment !! 0 = Some c0 -> c0 <> "Mobile" /\ c0 <> "Tablet") ->
  exists p', gecko p comment = Some p' /\ os p' = os p.
Proof.
  intros Hos H1 HAnd H0. unfold gecko. apply String.eqb_neq in Hos.
  destruct comment as [|c0 [|c1 [|c2 [|c3 rest]]]]; simpl;
    try (eexists; split; reflexivity);
    destruct (H1 c1 eq_refl) as [HU HA];
    destruct (H0 c0 eq_refl) as [HM HT];
    apply String.eqb_neq in HU, HA, HM, HT;
    rewrite HU, HA, HAnd, HM, HT, Hos; simpl;
    try destruct (negb (HasPrefix c3 "rv:"));
    eexists; split; reflexivity.
Qed.

Lemma getPlatform_Windows (c0 : string) (comment : list string) :
  getPlatform (c0 :: comment) = Some "Windows" ->
  c0 <> "Mobile" /\ c0 <> "Tablet".
Proof. intros H. split; intros ->; vm_compute in H; discriminate. Qed.

End WriteOnce.

(** C3 does not hold at the version token 5.01: the code returns the
    long service-pack name, not "Windows 2000 SP1". *)
Lemma normalizeOS_5_01_not_SP1 :
  normalizeOS "Windows NT 5.01" <> "Windows 2000 SP1".
Proof. vm_compute. discriminate. Qed.

(** C3 (amended): [normalizeOS] rewrites only inputs of the shape
    "<X> NT <version>" with X free of spaces, and maps the version token
    by the table, in which 5.01 gives "Windows 2000, Service Pack 1
    (SP1)"; an unknown version token and every other shape are returned
    unchanged. *)
Theorem normalizeOS_table :
  (forall x v : string,
      Contains x " " = false ->
      normalizeOS (x ++ " NT " ++ v) =
      default (x ++ " NT " ++ v)%string (nt_marketing_name v))
  /\ (forall name : string,
         (forall x v : string,
             Contains x " " = false -> name <> (x ++ " NT " ++ v)%string) ->
         normalizeOS name = name)
  /\ normalizeOS "Windows NT 6.1" = "Windows 7"
  /\ normalizeOS "Windows NT 99.9" = "Windows NT 99.9"
  /\ normalizeOS "Windows NT 5.01" = "Windows 2000, Service Pack 1 (SP1)".
Proof.
  split; [exact normalizeOS_shape|].
  split; [|repeat split; reflexivity].
  intros name H.
  destruct (string_dec (normalizeOS name) name) as [E|Hne]; [exact E|].
  destruct (normalizeOS_changed name Hne) as (x & v & w & Hn & Hx & _).
  now destruct (H x v Hx).
Qed.

Lemma normalizeOS_table_witness :
  normalizeOS ("Windows" ++ " NT " ++ "10.0") = "Windows 10"
  /\ normalizeOS ("Windows" ++ " NT " ++ "4.0") = "Windows NT 4.0"
  /\ normalizeOS "Linux x86_64" = "Linux x86_64".
Proof.
  destruct normalizeOS_table as (Hshape & Hother & _).
  split; [|split].
  - exact (Hshape "Windows" "10.0" eq_refl).
  - exact (Hshape "Windows" "4.0" eq_refl).
  - apply Hother. intros x v _ E.
    repeat (destruct x as [|? x]; cbn in E;
            [congruence | injection E as <- E]).
    destruct x; discriminate E.
Defined.

(** C7: for the raw os of an iPhone, [OSInfo] strips "like Mac OS X" and
    "CPU", trims, splits on spaces, turns the underscores of the version
    into dots, and keeps the raw string as the full name. *)
Theorem OSInfo_iPhone (p : UserAgent) :
  os p = "CPU iPhone OS 10_3_1 like Mac OS X" ->
  Trim (Replace (Replace (os p) "like Mac OS X" "" 1) "CPU" "" 1) " "
  = "iPhone OS 10_3_1"
  /\ Split "iPhone OS 10_3_1" " " = ["iPhone"; "OS"; "10_3_1"]
  /\ osName ["iPhone"; "OS"; "10_3_1"] = Some ("iPhone OS", "10_3_1")
  /\ Replace "10_3_1" "_" "." (-1) = "10.3.1"
  /\ OSInfo p = Some (OSInfo.mk (os p) "iPhone OS" "10.3.1").
Proof.
  intros H. unfold OSInfo. rewrite H. repeat split; vm_compute; reflexivity.
Qed.

Lemma OSInfo_iPhone_witness :
  OSInfo (set_os "CPU iPhone OS 10_3_1 like Mac OS X" (blank "AppleWebKit" "Safari"))
  = Some (OSInfo.mk "CPU iPhone OS 10_3_1 like Mac OS X" "iPhone OS" "10.3.1").
Proof.
  exact (proj2 (proj2 (proj2 (proj2
    (OSInfo_iPhone
       (set_os "CPU iPhone OS 10_3_1 like Mac OS X" (blank "AppleWebKit" "Safari"))
       eq_refl))))).
Defined.

(** C8: for the raw os "Windows XP x64 Edition", [OSInfo] drops the last
    two tokens before the generic split, so the name is "Windows" and
    the version "XP"; the full name is the raw string. *)
Theorem OSInfo_Windows_XP_x64 (p : UserAgent) :
  os p = "Windows XP x64 Edition" ->
  slice_to (Split "Windows XP x64 Edition" " ") 2 = Some ["Windows"; "XP"]
  /\ osName ["Windows"; "XP"] = Some ("Windows", "XP")
  /\ OSInfo p = Some (OSInfo.mk (os p) "Windows" "XP").
Proof.
  intros H. unfold OSInfo. rewrite H. repeat split; vm_compute; reflexivity.
Qed.

Lemma OSInfo_Windows_XP_x64_witness :
  OSInfo (set_os "Windows XP x64 Edition" (blank "Trident" "Internet Explorer"))
  = Some (OSInfo.mk "Windows XP x64 Edition" "Windows" "XP").
Proof.
  exact (proj2 (proj2
    (OSInfo_Windows_XP_x64
       (set_os "Windows XP x64 Edition" (blank "Trident" "Internet Explorer"))
       eq_refl))).
Defined.

(** [opera] and [dalvik] read [comment[0]] at once: the length check that
    protects this access is the one [detectOS] makes before it calls
    them. *)
Lemma opera_dalvik_need_a_token (p : UserAgent) :
  opera p [] = None /\ dalvik p [] = None.
Proof. split; reflexivity. Qed.

(** C1: for every record and every section list, [detectOS] returns a
    record, that is, no index expression of it or of a heuristic it
    calls is out of range, whatever the length of the comment lists.
    [getPlatform], [webkit], [gecko] and [trident] check the length
    themselves and are safe on every comment list; [opera] and [dalvik]
    are safe on the non-empty lists that [detectOS] hands them. *)
Theorem detectOS_index_safe :
  (forall (p : UserAgent) (sections : list section),
      is_Some (detectOS p sections))
  /\ (forall (p : UserAgent) (comment : list string),
         is_Some (getPlatform comment) /\ is_Some (webkit p comment)
         /\ is_Some (gecko p comment) /\ is_Some (trident p comment))
  /\ (forall (p : UserAgent) (comment : list string),
         0 < length comment ->
         is_Some (opera p comment) /\ is_Some (dalvik p comment)).
Proof.
  split; [exact detectOS_total|]. split.
  - intros p comment.
    auto using getPlatform_total, webkit_total, gecko_total, trident_total.
  - intros p comment H. auto using opera_total, dalvik_total.
Qed.

Lemma detectOS_index_safe_witness :
  is_Some (opera (blank "" "Opera") ["Android"])
  /\ is_Some (dalvik (blank "" "") ["Linux"; "U"]).
Proof.
  destruct detectOS_index_safe as (_ & _ & H). split.
  - apply (H (blank "" "Opera") ["Android"]). simpl. lia.
  - apply (H (blank "" "") ["Linux"; "U"]). simpl. lia.
Defined.

(** C4: on a comment of two tokens or more, [gecko] takes the os from
    the third token, or from the second when there is no third, if the
    second token is "U" or "arm_64"; otherwise, if the platform holds
    "Android", it marks the record mobile, makes the normalised second
    token the platform and the former platform the os. *)
Theorem gecko_os_rules (p : UserAgent) (comment : list string) (c1 : string) :
  2 <= length comment ->
  comment !! 1 = Some c1 ->
  exists p', gecko p comment = Some p'
    /\ (c1 = "U" \/ c1 = "arm_64" ->
        os p' = normalizeOS (default c1 (comment !! 2)))
    /\ (c1 <> "U" -> c1 <> "arm_64" ->
        Contains (platform p) "Android" = true ->
        mobile p' = true
        /\ platform p' = normalizeOS c1
        /\ os p' = platform p).
Proof.
  intros Hlen H1. unfold gecko.
  destruct comment as [|c0 [|c1' [|c2 [|c3 rest]]]]; simpl in Hlen; try lia;
    injection H1 as ->; simpl;
    destruct (String.eqb_spec c1 "U");
    destruct (String.eqb_spec c1 "arm_64"); simpl;
    destruct (Contains (platform p) "Android"); simpl;
    destruct (c0 == "Mobile"); destruct (c0 == "Tablet");
    destruct (os p == ""); simpl;
    try destruct (negb (HasPrefix c3 "rv:"));
    eexists; (split; [reflexivity|]);
    (split; [intros [|]; try congruence; reflexivity
            |intros; try congruence; auto]).
Qed.

Lemma gecko_os_rules_witness :
  exists p',
    gecko (set_platform "Android" (blank "Gecko" "Firefox"))
          ["Android"; "Mobile"; "rv:41.0"] = Some p'
    /\ mobile p' = true /\ platform p' = "Mobile" /\ os p' = "Android".
Proof.
  destruct (gecko_os_rules (set_platform "Android" (blank "Gecko" "Firefox"))
              ["Android"; "Mobile"; "rv:41.0"] "Mobile")
    as (p' & Hg & _ & Hswap).
  - simpl. lia.
  - reflexivity.
  - exists p'. split; [exact Hg|].
    apply Hswap; [discriminate | discriminate | reflexivity].
Defined.

(** C5: [trident] always sets the platform to "Windows"; with the os
    still unset it takes the os from the third token when the comment
    has three tokens or more and sets the literal "Windows NT 4.0"
    otherwise; the record becomes mobile exactly when some token starts
    with "IEMobile" (and keeps its flag otherwise), and the scan is
    decided by the first such token. *)
Theorem trident_rules (p : UserAgent) (comment : list string) :
  exists p', trident p comment = Some p'
    /\ platform p' = "Windows"
    /\ (os p = "" ->
        (3 <= length comment ->
         exists c2, comment !! 2 = Some c2 /\ os p' = normalizeOS c2)
        /\ (length comment < 3 -> os p' = "Windows NT 4.0"))
    /\ mobile p' = (if existsb is_IEMobile comment then true else mobile p)
    /\ (forall (q : UserAgent) (pre post : list string) (v : string),
           comment = (pre ++ v :: post)%list ->
           existsb is_IEMobile pre = false -> is_IEMobile v = true ->
           trident_mobile q comment = set_mobile true q).
Proof.
  rewrite trident_eq. eexists. split; [reflexivity|].
  destruct (trident_mobile_fields
              (if os p == "" then
                 set_os (match comment !! 2 with
                         | Some c2 => normalizeOS c2
                         | None => "Windows NT 4.0"
                         end) (set_platform "Windows" p)
               else set_platform "Windows" p) comment) as [-> ->].
  rewrite trident_mobile_spec.
  split; [destruct (os p == ""); reflexivity|].
  split; [|split].
  - intros ->. simpl. split.
    + intros Hlen. destruct comment as [|c0 [|c1 [|c2 rest]]];
        simpl in Hlen; try lia. exists c2. split; reflexivity.
    + intros Hlen. destruct comment as [|c0 [|c1 [|c2 rest]]];
        simpl in Hlen; try lia; reflexivity.
  - destruct (existsb is_IEMobile comment); destruct (os p == ""); reflexivity.
  - intros q pre post v -> Hpre Hv. now apply trident_mobile_first.
Qed.

Lemma trident_rules_witness :
  exists p',
    trident (blank "Trident" "Internet Explorer") ["compatible"; "MSIE 6.0"]
    = Some p'
    /\ platform p' = "Windows" /\ os p' = "Windows NT 4.0".
Proof.
  destruct (trident_rules (blank "Trident" "Internet Explorer")
              ["compatible"; "MSIE 6.0"]) as (p' & Ht & Hp & Hos & _).
  exists p'. split; [exact Ht|]. split; [exact Hp|].
  apply (Hos eq_refl). simpl. lia.
Defined.

(** C6: on a comment with a token that is "wv" or holds "wv", [webkit]
    marks the record mobile and renames the browser to "Chrome WebView"
    when the browser name holds "Chrome" and to "Android WebView"
    otherwise; the scan is decided by the first such token.  With the
    browser name "Chrome" the result is "Chrome WebView", mobile. *)
Theorem webkit_webview_rules (p : UserAgent) (comment : list string) :
  (exists c, In c comment /\ (c = "wv" \/ Contains c "wv" = true)) ->
  exists p', webkit p comment = Some p'
    /\ mobile p' = true
    /\ Browser.Name (browser p') =
       (if Contains (Browser.Name (browser p)) "Chrome"
        then "Chrome WebView" else "Android WebView")
    /\ (Browser.Name (browser p) = "Chrome" ->
        Browser.Name (browser p') = "Chrome WebView")
    /\ (forall (q : UserAgent) (pre post : list string) (c : string),
           comment = (pre ++ c :: post)%list ->
           existsb is_wv pre = false -> is_wv c = true ->
           webkit_wv q comment = mark_webview q).
Proof.
  intros (c & Hin & Hc).
  assert (Hex : existsb is_wv comment = true).
  { apply existsb_exists. exists c. split; [exact Hin|].
    unfold is_wv. destruct Hc as [-> | ->]; [reflexivity | apply orb_true_r]. }
  destruct (webkit_eq p comment) as [q [-> (Hb & Hm & _)]].
  eexists. split; [reflexivity|].
  rewrite webkit_wv_spec, Hex. unfold mark_webview. rewrite Hb.
  split; [destruct (Contains _ "Chrome"); reflexivity|].
  split; [destruct (Contains _ "Chrome"); reflexivity|].
  split.
  - intros ->. reflexivity.
  - intros q' pre post d -> Hpre Hd. now apply webkit_wv_first.
Qed.

Lemma webkit_webview_rules_witness :
  exists p',
    webkit (blank "AppleWebKit" "Chrome") ["Linux"; "Android 12"; "Pixel 6"; "wv"]
    = Some p'
    /\ mobile p' = true /\ Browser.Name (browser p') = "Chrome WebView".
Proof.
  destruct (webkit_webview_rules (blank "AppleWebKit" "Chrome")
              ["Linux"; "Android 12"; "Pixel 6"; "wv"])
    as (p' & Hw & Hm & _ & Hn & _).
  - exists "wv". split; [simpl; auto | left; reflexivity].
  - exists p'. split; [exact Hw|]. split; [exact Hm|]. apply Hn. reflexivity.
Defined.

(** C9: with a first section named "Mozilla" and the engine
    "AppleWebKit", once [webkit] has run the first section, in order,
    whose name folds to "Chrome" or to "Version" gives the browser its
    name ("Chrome", respectively "Android WebView") and its version;
    this replaces whatever name [webkit] left, its own "Chrome WebView"
    or "Android WebView" included.  Without such a section the record is
    as [webkit] left it. *)
Theorem detectOS_webkit_browser
    (p : UserAgent) (s : section) (rest : list section) :
  name s = "Mozilla" ->
  Browser.Engine (browser p) = "AppleWebKit" ->
  exists pl q p',
    getPlatform (comment s) = Some pl
    /\ webkit (fill_from_comment pl (comment s) p) (comment s) = Some q
    /\ detectOS p (s :: rest) = Some p'
    /\ (forall sec,
           find names_browser (s :: rest) = Some sec ->
           Browser.Name (browser p') =
             (if EqualFold (name sec) "Chrome" then "Chrome" else "Android WebView")
           /\ Browser.Version (browser p') = version sec
           /\ p' = set_browser_Version (version sec)
                     (set_browser_Name
                        (if EqualFold (name sec) "Chrome"
                         then "Chrome" else "Android WebView") q))
    /\ (find names_browser (s :: rest) = None -> p' = q).
Proof.
  intros Hn He.
  destruct (detectOS_Mozilla p s rest Hn) as (pl & Hpl & Hd).
  destruct (webkit_total (fill_from_comment pl (comment s) p) (comment s))
    as [q Hq].
  exists pl, q, (browser_of_sections q (s :: rest)).
  split; [exact Hpl|]. split; [exact Hq|]. split.
  - rewrite Hd. cbv zeta. rewrite He, Hq. reflexivity.
  - rewrite browser_of_sections_spec. split.
    + intros sec ->. repeat split.
    + intros ->. reflexivity.
Qed.

Lemma detectOS_webkit_browser_witness :
  exists p',
    detectOS (blank "AppleWebKit" "Safari")
      [mk_section "Mozilla" "5.0" ["Linux"; "Android 12"; "wv"];
       mk_section "AppleWebKit" "537.36" [];
       mk_section "Version" "4.0" [];
       mk_section "Chrome" "100.0" []] = Some p'
    /\ Browser.Name (browser p') = "Android WebView"
    /\ Browser.Version (browser p') = "4.0".
Proof.
  destruct (detectOS_webkit_browser (blank "AppleWebKit" "Safari")
              (mk_section "Mozilla" "5.0" ["Linux"; "Android 12"; "wv"])
              [mk_section "AppleWebKit" "537.36" [];
               mk_section "Version" "4.0" [];
               mk_section "Chrome" "100.0" []] eq_refl eq_refl)
    as (pl & q & p' & _ & _ & Hd & Hfound & _).
  exists p'. split; [exact Hd|].
  destruct (Hfound (mk_section "Version" "4.0" []) eq_refl) as (Hname & Hver & _).
  split; [exact Hname | exact Hver].
Defined.

(** C10: with a first section named "Mozilla" and an engine that is none
    of "", "Gecko", "AppleWebKit" and "Trident", [detectOS] runs no
    heuristic: it fills the platform, and the os when the platform is
    "Windows", from the comment, and leaves [undecided] as it was (false
    on a new record).  A first section whose name is none of
    "Mozilla", "Opera", "Dalvik" and "okhttp" sets [undecided]. *)
Theorem detectOS_unknown_engine_or_name
    (p : UserAgent) (s : section) (rest : list section) :
  (name s = "Mozilla" ->
   Browser.Engine (browser p) <> "" ->
   Browser.Engine (browser p) <> "Gecko" ->
   Browser.Engine (browser p) <> "AppleWebKit" ->
   Browser.Engine (browser p) <> "Trident" ->
   exists pl p',
     getPlatform (comment s) = Some pl
     /\ detectOS p (s :: rest) = Some p'
     /\ p' = fill_from_comment pl (comment s) p
     /\ undecided p' = undecided p
     /\ platform p' = pl
     /\ os p' = (match comment s !! 0 with
                 | Some c0 => if pl == "Windows" then normalizeOS c0 else os p
                 | None => os p
                 end)
     /\ localization p' = localization p /\ mobile p' = mobile p
     /\ browser p' = browser p /\ model p' = model p)
  /\ (name s <> "Mozilla" -> name s <> "Opera" -> name s <> "Dalvik" ->
      name s <> "okhttp" ->
      detectOS p (s :: rest) = Some (set_undecided true p)
      /\ exists p',
           detectOS p (s :: rest) = Some p'
           /\ undecided p' = true
           /\ platform p' = platform p /\ os p' = os p
           /\ localization p' = localization p /\ mobile p' = mobile p
           /\ browser p' = browser p /\ model p' = model p).
Proof.
  split.
  2: { intros H1 H2 H3 H4.
       pose proof (detectOS_other_name p s rest H1 H2 H3 H4) as Hd.
       split; [exact Hd|].
       exists (set_undecided true p). split; [exact Hd|].
       repeat split; reflexivity. }
  intros Hn H1 H2 H3 H4.
  destruct (detectOS_Mozilla p s rest Hn) as (pl & Hpl & Hd).
  exists pl, (fill_from_comment pl (comment s) p).
  split; [exact Hpl|]. split.
  - rewrite Hd. cbv zeta.
    apply String.eqb_neq in H1, H2, H3, H4. now rewrite H1, H2, H3, H4.
  - unfold fill_from_comment.
    destruct (comment s) as [|c0 cm]; simpl;
      [|destruct (pl == "Windows")]; repeat split; reflexivity.
Qed.

Lemma detectOS_unknown_engine_or_name_witness :
  (exists p',
      detectOS (blank "Presto" "Opera")
        [mk_section "Mozilla" "5.0" ["Windows NT 6.1"; "WOW64"]] = Some p'
      /\ undecided p' = false /\ platform p' = "Windows" /\ os p' = "Windows 7")
  /\ (exists p',
         detectOS (blank "" "") [mk_section "curl" "7.64.1" []] = Some p'
         /\ undecided p' = true /\ platform p' = "" /\ os p' = "").
Proof.
  destruct (detectOS_unknown_engine_or_name (blank "Presto" "Opera")
              (mk_section "Mozilla" "5.0" ["Windows NT 6.1"; "WOW64"]) [])
    as [Hengine _].
  destruct (detectOS_unknown_engine_or_name (blank "" "")
              (mk_section "curl" "7.64.1" []) []) as [_ Hname].
  split.
  - destruct Hengine as (pl & p' & Hpl & Hd & _ & Hu & Hp & Ho & _);
      try discriminate; [reflexivity|].
    injection Hpl as <-.
    exists p'. split; [exact Hd|]. split; [exact Hu|].
    split; [exact Hp | exact Ho].
  - destruct Hname as (_ & p' & Hd & Hu & Hp & Ho & _); try discriminate.
    exists p'. split; [exact Hd|]. split; [exact Hu|].
    split; [exact Hp | exact Ho].
Defined.

(** C2 does not hold on a Firefox for Windows: the "Mozilla" branch of [detectOS] sets the os to "Windows", and [gecko],
    whose second token is "U", replaces it by the os of the third token
    without looking at the field. *)
Lemma gecko_U_overwrites_os :
  ~ (forall (p : UserAgent) (s : section) (rest : list section)
            (c0 : string) (p' : UserAgent),
        name s = "Mozilla" ->
        getPlatform (comment s) = Some "Windows" ->
        comment s !! 0 = Some c0 ->
        normalizeOS c0 <> "" ->
        detectOS p (s :: rest) = Some p' ->
        os p' = normalizeOS c0)
  /\ ~ (forall (p : UserAgent) (comment : list string) (p' : UserAgent),
           os p <> "" -> gecko p comment = Some p' -> os p' = os p).
Proof.
  pose (cm := ["Windows"; "U"; "Windows NT 5.1"; "en-US"; "rv:1.9.2.28"]).
  split.
  - intros H.
    pose (p := blank "Gecko" "Firefox").
    pose (s := mk_section "Mozilla" "5.0" cm).
    assert (Hd : exists p', detectOS p [s] = Some p' /\ os p' = "Windows XP")
      by (eexists; split; reflexivity).
    destruct Hd as (p' & Hd & Hos).
    assert (Hne : normalizeOS "Windows" <> "") by (vm_compute; discriminate).
    specialize (H p s [] "Windows" p' eq_refl eq_refl eq_refl Hne Hd).
    rewrite Hos in H. vm_compute in H. discriminate H.
  - intros H.
    pose (p := set_os "Windows" (blank "Gecko" "Firefox")).
    assert (Hg : exists p', gecko p cm = Some p' /\ os p' = "Windows XP")
      by (eexists; split; reflexivity).
    destruct Hg as (p' & Hg & Hos).
    assert (Hne : os p <> "") by (vm_compute; discriminate).
    specialize (H p cm p' Hne Hg).
    rewrite Hos in H. vm_compute in H. discriminate H.
Qed.

(** The branch of [gecko] for a second token "U" or "arm_64": the os is
    assigned whatever it was. *)
Lemma gecko_U_os (p : UserAgent) (comment : list string) (c1 : string) :
  comment !! 1 = Some c1 ->
  c1 = "U" \/ c1 = "arm_64" ->
  exists p', gecko p comment = Some p'
             /\ os p' = normalizeOS (default c1 (comment !! 2)).
Proof.
  intros H1 HU. unfold gecko.
  assert (E : (c1 == "U") || (c1 == "arm_64") = true)
    by (destruct HU as [-> | ->]; reflexivity).
  destruct comment as [|c0 [|c1' [|c2 [|c3 rest]]]]; try discriminate;
    injection H1 as ->; simpl; rewrite E; simpl;
    try destruct (negb (HasPrefix c3 "rv:"));
    eexists; split; reflexivity.
Qed.

(** C2 (amended): [webkit], [trident] and the last branch of [gecko]
    test that the os is still empty before they write it, so they keep a
    non-empty os; the branch of [gecko] for a second token "U" or
    "arm_64" writes the os without that test.  In one run of [detectOS],
    the os that the "Mozilla" branch sets from a Windows token is kept
    to the end unless the engine is "Gecko" and the second token is "U"
    or "arm_64"; in that case [gecko] replaces it by the normalised
    third token, or by the normalised second token when there is no
    third. *)
Theorem os_write_once_unless_gecko_U :
  (forall (p : UserAgent) (comment : list string),
      os p <> "" -> exists p', webkit p comment = Some p' /\ os p' = os p)
  /\ (forall (p : UserAgent) (comment : list string),
         os p <> "" -> exists p', trident p comment = Some p' /\ os p' = os p)
  /\ (forall (p : UserAgent) (comment : list string),
         os p <> "" ->
         (forall c1, comment !! 1 = Some c1 -> c1 <> "U" /\ c1 <> "arm_64") ->
         Contains (platform p) "Android" = false ->
         (forall c0, comment !! 0 = Some c0 -> c0 <> "Mobile" /\ c0 <> "Tablet") ->
         exists p', gecko p comment = Some p' /\ os p' = os p)
  /\ (forall (p : UserAgent) (s : section) (rest : list section) (c0 : string),
         name s = "Mozilla" ->
         getPlatform (comment s) = Some "Windows" ->
         comment s !! 0 = Some c0 ->
         normalizeOS c0 <> "" ->
         ~ (Browser.Engine (browser p) = "Gecko"
            /\ (comment s !! 1 = Some "U" \/ comment s !! 1 = Some "arm_64")) ->
         exists p', detectOS p (s :: rest) = Some p' /\ os p' = normalizeOS c0)
  /\ (forall (p : UserAgent) (comment : list string) (c1 : string),
         comment !! 1 = Some c1 ->
         c1 = "U" \/ c1 = "arm_64" ->
         exists p', gecko p comment = Some p'
                    /\ os p' = normalizeOS (default c1 (comment !! 2)))
  /\ (forall (p : UserAgent) (s : section) (rest : list section) (c1 : string),
         name s = "Mozilla" ->
         Browser.Engine (browser p) = "Gecko" ->
         comment s !! 1 = Some c1 ->
         c1 = "U" \/ c1 = "arm_64" ->
         exists p', detectOS p (s :: rest) = Some p'
                    /\ os p' = normalizeOS (default c1 (comment s !! 2))).
Proof.
  split; [exact webkit_keeps_os|].
  split; [exact trident_keeps_os|].
  split; [exact gecko_keeps_os|].
  split; [|split; [exact gecko_U_os|]].
  2: { intros p s rest c1 Hn He H1 HU.
       destruct (detectOS_Mozilla p s rest Hn) as (pl & _ & ->).
       cbv zeta. rewrite He. change ("Gecko" == "") with false.
       change ("Gecko" == "Gecko") with true. cbv iota.
       now apply gecko_U_os. }
  intros p s rest c0 Hn Hpl Hc0 Hne Hnot.
  destruct (detectOS_Mozilla p s rest Hn) as (pl & Hpl' & ->).
  rewrite Hpl in Hpl'. injection Hpl' as <-.
  destruct (comment s) as [|c0' cm] eqn:Hcm; [discriminate|].
  injection Hc0 as ->.
  cbv zeta. unfold fill_from_comment.
  change ("Windows" == "Windows") with true. cbv iota.
  set (p0 := set_os (normalizeOS c0) (set_platform "Windows" p)).
  assert (Hos0 : os p0 = normalizeOS c0) by reflexivity.
  assert (Hne0 : os p0 <> "") by (rewrite Hos0; exact Hne).
  destruct (_ == ""); [eexists; split; reflexivity|].
  destruct (String.eqb_spec (Browser.Engine (browser p)) "Gecko") as [HG|_].
  { rewrite <- Hos0. apply gecko_keeps_os; [exact Hne0| | reflexivity |].
    - intros c1 H1. split; intros ->; apply Hnot; auto.
    - intros c H0. injection H0 as <-. exact (getPlatform_Windows _ _ Hpl). }
  destruct (_ == "AppleWebKit").
  { destruct (webkit_keeps_os p0 (c0 :: cm) Hne0) as (q & -> & Hq).
    eexists. split; [reflexivity|].
    rewrite browser_of_sections_os. congruence. }
  destruct (_ == "Trident").
  { rewrite <- Hos0. now apply trident_keeps_os. }
  eexists. split; reflexivity.
Qed.

Lemma os_write_once_unless_gecko_U_witness :
  (exists p',
      detectOS (blank "Gecko" "Firefox")
        [mk_section "Mozilla" "5.0" ["Windows NT 10.0"; "Win64"; "x64"]]
      = Some p'
      /\ os p' = "Windows 10")
  /\ (exists p',
         detectOS (blank "Gecko" "Firefox")
           [mk_section "Mozilla" "5.0"
              ["Windows"; "U"; "Windows NT 5.1"; "en-US"; "rv:1.9.2.28"]]
         = Some p'
         /\ os p' = "Windows XP").
Proof.
  destruct os_write_once_unless_gecko_U as (_ & _ & _ & Hkept & _ & HU).
  split.
  - apply (Hkept (blank "Gecko" "Firefox")
             (mk_section "Mozilla" "5.0" ["Windows NT 10.0"; "Win64"; "x64"])
             [] "Windows NT 10.0");
      try reflexivity.
    + vm_compute. discriminate.
    + intros [_ [H1|H1]]; discriminate H1.
  - apply (HU (blank "Gecko" "Firefox")
             (mk_section "Mozilla" "5.0"
                ["Windows"; "U"; "Windows NT 5.1"; "en-US"; "rv:1.9.2.28"])
             [] "U");
      try reflexivity.
    left. reflexivity.
Defined.


(** * Further properties of the code *)

(** ** The normaliser and the platform extractor *)

Lemma nt_marketing_name_values (v w : string) :
  nt_marketing_name v = Some w -> w <> "" /\ normalizeOS w = w.
Proof.
  unfold nt_marketing_name.
  repeat (match goal with |- context [v == ?l] => destruct (v == l) end;
          [intros [= <-]; split; [discriminate | vm_compute; reflexivity]|]).
  discriminate.
Qed.

Lemma normalizeOS_cases (name : string) :
  normalizeOS name = name
  \/ exists v, nt_marketing_name v = Some (normalizeOS name).
Proof.
  destruct (string_dec (normalizeOS name) name) as [E|Hne]; [left; exact E|].
  destruct (normalizeOS_changed name Hne) as (x & v & w & _ & _ & Hw & ->).
  right. exists v. exact Hw.
Qed.

(** X1: normalising twice is normalising once: no marketing name is
    itself of the shape that [normalizeOS] rewrites. *)
Theorem normalizeOS_idempotent (name : string) :
  normalizeOS (normalizeOS name) = normalizeOS name.
Proof.
  destruct (normalizeOS_cases name) as [E|[v Hv]]; [congruence|].
  exact (proj2 (nt_marketing_name_values _ _ Hv)).
Qed.

(** X2: the normaliser returns the empty string for the empty string
    only. *)
Theorem normalizeOS_empty_iff (name : string) :
  normalizeOS name = "" <-> name = "".
Proof.
  split; [|intros ->; reflexivity].
  destruct (normalizeOS_cases name) as [E|[v Hv]]; [congruence|].
  intros E. now destruct (proj1 (nt_marketing_name_values _ _ Hv)).
Qed.

(** X3: the platform that [getPlatform] returns is never "compatible";
    it is empty exactly when there is no comment or the first token is
    "compatible" or empty; and it is a label that [getPlatform] maps to
    itself. *)
Theorem getPlatform_label (comment : list string) (pl : string) :
  getPlatform comment = Some pl ->
  pl <> "compatible"
  /\ (pl = "" <-> comment = [] \/ comment !! 0 = Some "compatible"
                  \/ comment !! 0 = Some "")
  /\ getPlatform [pl] = Some pl.
Proof.
  unfold getPlatform. destruct comment as [|c0 rest]; simpl.
  - intros [= <-]. split; [discriminate|]. split; [tauto | reflexivity].
  - destruct (String.eqb_spec c0 "compatible") as [->|Hc]; simpl.
    { intros [= <-]. split; [discriminate|]. split; [tauto | reflexivity]. }
    destruct (HasPrefix c0 "Windows") eqn:HW;
      [|destruct (HasPrefix c0 "Symbian") eqn:HS;
        [|destruct (HasPrefix c0 "webOS") eqn:Hw;
          [|destruct (String.eqb_spec c0 "BB10") as [->|HB]]]];
      intros [= <-].
    1-4: (split; [discriminate|]; split; [|reflexivity]; split;
          [discriminate|];
          intros [H|[H|H]]; [discriminate H | congruence |];
          first [discriminate H | injection H as ->; discriminate]).
    split; [exact Hc|]. split.
    + split; [intros ->; auto | intros [H|[H|H]]; congruence].
    + apply String.eqb_neq in Hc, HB. now rewrite Hc, HW, HS, Hw, HB.
Qed.

Lemma getPlatform_label_witness :
  getPlatform ["BB10"; "Touch"] = Some "BlackBerry"
  /\ "BlackBerry" <> "compatible"
  /\ getPlatform ["BlackBerry"] = Some "BlackBerry".
Proof.
  pose proof (getPlatform_label ["BB10"; "Touch"] "BlackBerry" eq_refl)
    as (H1 & _ & H2).
  split; [reflexivity|]. split; [exact H1 | exact H2].
Defined.

(** ** Opera, Dalvik and Gecko *)

(** X4: on a non-empty comment [opera] writes platform and os whatever
    they were.  A first token that starts with "Windows" gives the
    platform "Windows", the normalised token as os, and the localization
    from the third token, or from the fourth when the third starts with
    "MRA".  Any other first token is the platform as it stands, the
    second token (the first when there is no second) is the os, not
    normalised, the fourth token is the localization, and a first token
    that starts with "Android" marks the record mobile. *)
Theorem opera_rules (p : UserAgent) (comment : list string) (c0 : string) :
  comment !! 0 = Some c0 ->
  exists p', opera p comment = Some p'
    /\ (HasPrefix c0 "Windows" = true ->
        platform p' = "Windows" /\ os p' = normalizeOS c0
        /\ mobile p' = mobile p
        /\ localization p' =
           match comment !! 2, comment !! 3 with
           | Some c2, Some c3 => if HasPrefix c2 "MRA" then c3 else c2
           | Some c2, None => c2
           | None, _ => localization p
           end)
    /\ (HasPrefix c0 "Windows" = false ->
        platform p' = c0 /\ os p' = default c0 (comment !! 1)
        /\ mobile p' = (HasPrefix c0 "Android" || mobile p)
        /\ localization p' = default (localization p) (comment !! 3)).
Proof.
  intros H0. unfold opera.
  destruct comment as [|c0' [|c1 [|c2 [|c3 rest]]]]; [discriminate|..];
    injection H0 as ->; simpl;
    destruct (HasPrefix c0 "Windows"); simpl;
    try destruct (HasPrefix c2 "MRA");
    destruct (HasPrefix c0 "Android"); simpl;
    eexists; (split; [reflexivity|]);
    split; intros; try discriminate; repeat split; reflexivity.
Qed.

Lemma opera_rules_witness :
  exists p',
    opera (set_os "stale" (blank "Presto" "Opera"))
          ["Windows NT 6.1"; "U"; "MRA 5.8"; "en"] = Some p'
    /\ platform p' = "Windows" /\ os p' = "Windows 7"
    /\ localization p' = "en".
Proof.
  destruct (opera_rules (set_os "stale" (blank "Presto" "Opera"))
              ["Windows NT 6.1"; "U"; "MRA 5.8"; "en"] "Windows NT 6.1" eq_refl)
    as (p' & Ho & HW & _).
  exists p'. split; [exact Ho|].
  destruct (HW eq_refl) as (Hp & Hos & _ & Hl).
  split; [exact Hp|]. split; [exact Hos | exact Hl].
Defined.

(** X5: [dalvik] acts only on a first token that starts with "Linux":
    that token becomes the platform, the record becomes mobile and the
    third token, when there is one, becomes the os.  With any other
    first token the record is returned as it was. *)
Theorem dalvik_rules (p : UserAgent) (comment : list string) (c0 : string) :
  comment !! 0 = Some c0 ->
  exists p', dalvik p comment = Some p'
    /\ (HasPrefix c0 "Linux" = true ->
        platform p' = c0 /\ mobile p' = true
        /\ os p' = default (os p) (comment !! 2)
        /\ localization p' = localization p)
    /\ (HasPrefix c0 "Linux" = false -> p' = p).
Proof.
  intros H0. unfold dalvik.
  destruct comment as [|c0' [|c1 [|c2 rest]]]; [discriminate|..];
    injection H0 as ->; simpl;
    destruct (HasPrefix c0 "Linux"); simpl;
    eexists; (split; [reflexivity|]);
    split; intros; try discriminate; repeat split; reflexivity.
Qed.

Lemma dalvik_rules_witness :
  (exists p',
      dalvik (blank "" "") ["Linux"; "U"; "Android 9"; "SM-G960F"] = Some p'
      /\ platform p' = "Linux" /\ mobile p' = true /\ os p' = "Android 9")
  /\ dalvik (blank "" "") ["Macintosh"] = Some (blank "" "").
Proof.
  split.
  - destruct (dalvik_rules (blank "" "")
                ["Linux"; "U"; "Android 9"; "SM-G960F"] "Linux" eq_refl)
      as (p' & Hd & HL & _).
    exists p'. split; [exact Hd|].
    destruct (HL eq_refl) as (Hp & Hm & Hos & _).
    split; [exact Hp|]. split; [exact Hm | exact Hos].
  - destruct (dalvik_rules (blank "" "") ["Macintosh"] "Macintosh" eq_refl)
      as (p' & Hd & _ & Hno).
    rewrite Hd. f_equal. apply Hno. reflexivity.
Defined.

(** X6: whatever branch [gecko] takes, the localization is the fourth
    token when there is one that does not start with "rv:", and is left
    alone otherwise; on a comment of one token or none the record is
    returned as it was. *)
Theorem gecko_localization (p : UserAgent) (comment : list string) :
  exists p', gecko p comment = Some p'
    /\ localization p' =
       match comment !! 3 with
       | Some c3 => if HasPrefix c3 "rv:" then localization p else c3
       | None => localization p
       end
    /\ (length comment <= 1 -> p' = p).
Proof.
  unfold gecko.
  destruct comment as [|c0 [|c1 [|c2 [|c3 rest]]]]; simpl;
    try (eexists; split; [reflexivity|]; split; [reflexivity|]; intros; (reflexivity || lia));
    destruct ((c1 == "U") || (c1 == "arm_64")); simpl;
    destruct (Contains (platform p) "Android"); simpl;
    destruct ((c0 == "Mobile") || (c0 == "Tablet"));
    destruct (os p == ""); simpl;
    try destruct (HasPrefix c3 "rv:"); simpl;
    eexists; (split; [reflexivity|]); (split; [reflexivity|]); intros; lia.
Qed.

Lemma gecko_localization_witness :
  gecko (blank "Gecko" "Firefox") ["X11"] = Some (blank "Gecko" "Firefox").
Proof.
  destruct (gecko_localization (blank "Gecko" "Firefox") ["X11"])
    as (p' & Hg & _ & Hshort).
  rewrite Hg. f_equal. apply Hshort. simpl. lia.
Defined.

(** The two branches of [gecko] that follow a second token other than
    "U" and "arm_64". *)
Lemma gecko_not_U (p : UserAgent) (comment : list string) (c0 c1 : string) :
  comment !! 0 = Some c0 -> comment !! 1 = Some c1 ->
  c1 <> "U" -> c1 <> "arm_64" ->
  exists p', gecko p comment = Some p'
    /\ (Contains (platform p) "Android" = true ->
        mobile p' = true /\ platform p' = normalizeOS c1
        /\ os p' = platform p)
    /\ (Contains (platform p) "Android" = false ->
        c0 = "Mobile" \/ c0 = "Tablet" ->
        mobile p' = true /\ os p' = "FirefoxOS"
        /\ platform p' = platform p).
Proof.
  intros H0 H1 HU HA. unfold gecko.
  apply String.eqb_neq in HU, HA.
  destruct comment as [|c0' [|c1' [|c2 [|c3 rest]]]]; try discriminate;
    injection H0 as ->; injection H1 as ->; simpl; rewrite HU, HA; simpl;
    destruct (Contains (platform p) "Android"); simpl;
    destruct (String.eqb_spec c0 "Mobile");
    destruct (String.eqb_spec c0 "Tablet"); simpl;
    destruct (os p == ""); simpl;
    try destruct (negb (HasPrefix c3 "rv:"));
    eexists; (split; [reflexivity|]);
    (split; [intros; try discriminate; repeat split; reflexivity
            |intros Hc [|]; try discriminate Hc; try congruence;
             repeat split; reflexivity]).
Qed.

(** ** What the heuristics leave alone *)

(** [webkit] step by step: the platform if it is unset, the os if it is
    unset and there is a second token, then the scan. *)
Lemma webkit_steps (p : UserAgent) (comment : list string) (pl : string) :
  getPlatform comment = Some pl ->
  webkit p comment =
  Some (webkit_wv
          (set_os (if os p == ""
                   then default (os p) (normalizeOS <$> comment !! 1)
                   else os p)
             (set_platform (if platform p == "" then pl else platform p) p))
          comment).
Proof.
  intros Hpl. unfold webkit. rewrite Hpl. generalize webkit_wv. intros scan.
  destruct p as [pf o l m b mo u]. simpl.
  destruct comment as [|c0 [|c1 rest]];
    destruct (pf == ""); destruct (o == "") eqn:Ho; simpl;
    rewrite ?Ho; simpl; try reflexivity;
    apply String.eqb_eq in Ho; subst o; reflexivity.
Qed.

Section Frames.

Variables (p p' : UserAgent) (comment : list string).

Lemma webkit_frame : webkit p comment = Some p' -> frame p p'.
Proof.
  destruct (getPlatform_total comment) as [pl Hpl].
  rewrite (webkit_steps _ _ _ Hpl), webkit_wv_spec.
  destruct (existsb is_wv comment); unfold mark_webview; simpl;
    try destruct (Contains _ "Chrome");
    intros [= <-]; repeat split; auto.
Qed.

Lemma gecko_frame : gecko p comment = Some p' -> frame p p'.
Proof.
  unfold gecko.
  destruct comment as [|c0 [|c1 [|c2 [|c3 rest]]]]; simpl;
    try (intros [= <-]; repeat split; auto; fail);
    destruct ((c1 == "U") || (c1 == "arm_64")); simpl;
    destruct (Contains (platform p) "Android"); simpl;
    destruct ((c0 == "Mobile") || (c0 == "Tablet"));
    destruct (os p == ""); simpl;
    try destruct (negb (HasPrefix c3 "rv:"));
    intros [= <-]; repeat split; auto.
Qed.

Lemma trident_frame : trident p comment = Some p' -> frame p p'.
Proof.
  rewrite trident_eq, trident_mobile_spec.
  destruct (existsb is_IEMobile comment); destruct (os p == "");
    intros [= <-]; repeat split; auto.
Qed.

Lemma opera_frame : opera p comment = Some p' -> frame p p'.
Proof.
  unfold opera.
  destruct comment as [|c0 [|c1 [|c2 [|c3 rest]]]]; simpl; [discriminate|..];
    destruct (HasPrefix c0 "Windows"); simpl;
    try destruct (HasPrefix c2 "MRA");
    destruct (HasPrefix c0 "Android"); simpl;
    intros [= <-]; repeat split; auto.
Qed.

Lemma dalvik_frame : dalvik p comment = Some p' -> frame p p'.
Proof.
  unfold dalvik.
  destruct comment as [|c0 [|c1 [|c2 rest]]]; simpl; [discriminate|..];
    destruct (HasPrefix c0 "Linux"); simpl;
    intros [= <-]; repeat split; auto.
Qed.

End Frames.

Lemma fill_from_comment_frame (pl : string) (comment : list string) (p : UserAgent) :
  frame p (fill_from_comment pl comment p)
  /\ platform (fill_from_comment pl comment p) = pl
  /\ localization (fill_from_comment pl comment p) = localization p
  /\ browser (fill_from_comment pl comment p) = browser p.
Proof.
  unfold fill_from_comment.
  destruct comment; [|destruct (pl == "Windows")]; repeat split; auto.
Qed.

Lemma browser_of_sections_frame (q : UserAgent) (sections : list section) :
  frame q (browser_of_sections q sections)
  /\ platform (browser_of_sections q sections) = platform q.
Proof.
  rewrite browser_of_sections_spec.
  destruct (find _ _); repeat split; auto.
Qed.

Lemma frame_trans (p q r : UserAgent) : frame p q -> frame q r -> frame p r.
Proof.
  intros (H1 & H2 & H3 & H4) (K1 & K2 & K3 & K4).
  repeat split; try congruence. auto.
Qed.

(** The run of [detectOS] on a non-empty section list, up to the
    undecided flag. *)
Lemma detectOS_frame_cons (p p' : UserAgent) (s : section) (rest : list section) :
  detectOS p (s :: rest) = Some p' ->
  model p' = model p
  /\ Browser.Engine (browser p') = Browser.Engine (browser p)
  /\ (mobile p = true -> mobile p' = true)
  /\ undecided p' =
     (if name s == "Mozilla" then
        (Browser.Engine (browser p) == "") || undecided p
      else if (name s == "Opera") || (name s == "Dalvik") || (name s == "okhttp")
      then undecided p
      else true).
Proof.
  destruct (String.eqb_spec (name s) "Mozilla") as [Hn|Hn].
  - destruct (detectOS_Mozilla p s rest Hn) as (pl & Hpl & ->). cbv zeta.
    destruct (fill_from_comment_frame pl (comment s) p) as (Hf & _).
    set (p0 := fill_from_comment pl (comment s) p) in *.
    assert (Hfin : forall r, frame p0 r ->
              model r = model p
              /\ Browser.Engine (browser r) = Browser.Engine (browser p)
              /\ (mobile p = true -> mobile r = true)
              /\ undecided r = undecided p).
    { intros r Hr. destruct (frame_trans _ _ _ Hf Hr) as (?&?&?&?). auto. }
    destruct (Browser.Engine (browser p) == "") eqn:E0.
    { intros [= <-]. destruct Hf as (?&?&?&?). repeat split; auto. }
    simpl.
    destruct (_ == "Gecko").
    { intros H. apply gecko_frame in H. exact (Hfin _ H). }
    destruct (_ == "AppleWebKit").
    { destruct (webkit p0 (comment s)) as [q|] eqn:Hq; [|discriminate].
      intros [= <-]. apply webkit_frame in Hq.
      apply Hfin. eapply frame_trans; [exact Hq|].
      exact (proj1 (browser_of_sections_frame q (s :: rest))). }
    destruct (_ == "Trident").
    { intros H. apply trident_frame in H. exact (Hfin _ H). }
    intros [= <-]. apply Hfin. repeat split; auto.
  - unfold detectOS. simpl. apply String.eqb_neq in Hn. rewrite Hn.
    destruct (name s == "Opera"); simpl.
    { destruct (0 <? length (comment s)).
      - intros H. apply opera_frame in H. destruct H as (?&?&?&?). auto.
      - intros [= <-]. auto. }
    destruct (name s == "Dalvik"); simpl.
    { destruct (0 <? length (comment s)).
      - intros H. apply dalvik_frame in H. destruct H as (?&?&?&?). auto.
      - intros [= <-]. auto. }
    destruct (name s == "okhttp"); simpl; intros [= <-]; auto.
Qed.

(** X7: [detectOS] never writes the model nor the engine of the browser,
    and never lowers a flag: a record that is mobile stays mobile, one
    that is undecided stays undecided. *)
Theorem detectOS_keeps (p : UserAgent) (sections : list section) :
  exists p', detectOS p sections = Some p'
    /\ Model p' = Model p
    /\ Browser.Engine (browser p') = Browser.Engine (browser p)
    /\ (mobile p = true -> mobile p' = true)
    /\ (undecided p = true -> undecided p' = true).
Proof.
  destruct (detectOS_total p sections) as [p' Hd]. exists p'.
  split; [exact Hd|]. destruct sections as [|s rest].
  - injection Hd as <-. auto.
  - destruct (detectOS_frame_cons _ _ _ _ Hd) as (Hm & He & Hmob & Hu).
    repeat split; auto. intros Hund. rewrite Hu, Hund.
    rewrite orb_true_r. now repeat destruct (_ == _).
Qed.

Lemma detectOS_keeps_witness :
  exists p',
    detectOS (set_mobile true (blank "Trident" "Internet Explorer"))
      [mk_section "Mozilla" "4.0" ["compatible"; "MSIE 8.0"; "Windows NT 6.1"]]
    = Some p'
    /\ mobile p' = true.
Proof.
  destruct (detectOS_keeps (set_mobile true (blank "Trident" "Internet Explorer"))
              [mk_section "Mozilla" "4.0" ["compatible"; "MSIE 8.0"; "Windows NT 6.1"]])
    as (p' & Hd & _ & _ & Hm & _).
  exists p'. split; [exact Hd | exact (Hm eq_refl)].
Defined.

(** X8: on a non-empty section list [detectOS] raises the undecided flag
    in two cases only: a first section named "Mozilla" with an empty
    engine, and a first section named none of "Mozilla", "Opera",
    "Dalvik" and "okhttp".  In every other case the flag is as it was,
    also for an "Opera" or "Dalvik" section without a comment. *)
Theorem detectOS_undecided (p : UserAgent) (s : section) (rest : list section) :
  exists p', detectOS p (s :: rest) = Some p'
    /\ undecided p' =
       (if name s == "Mozilla" then
          (Browser.Engine (browser p) == "") || undecided p
        else if (name s == "Opera") || (name s == "Dalvik") || (name s == "okhttp")
        then undecided p
        else true).
Proof.
  destruct (detectOS_total p (s :: rest)) as [p' Hd]. exists p'.
  split; [exact Hd|]. apply (detectOS_frame_cons _ _ _ _ Hd).
Qed.


(** ** The dispatcher and a heuristic, composed *)

Lemma normalizeOS_nonempty (name : string) :
  name <> "" -> normalizeOS name <> "".
Proof.
  intros Hn. destruct (normalizeOS_cases name) as [E|[v Hv]]; [congruence|].
  exact (proj1 (nt_marketing_name_values _ _ Hv)).
Qed.

Lemma getPlatform_Windows_token (c0 : string) (comment : list string) :
  getPlatform (c0 :: comment) = Some "Windows" -> c0 <> "".
Proof. intros H ->. vm_compute in H. discriminate. Qed.

Lemma webkit_wv_platform (q : UserAgent) (comment : list string) :
  platform (webkit_wv q comment) = platform q.
Proof.
  rewrite webkit_wv_spec. unfold mark_webview.
  destruct (existsb _ _); [destruct (Contains _ _)|]; reflexivity.
Qed.

(** The os that the "Mozilla" branch has when it reaches the switch. *)
Lemma fill_from_comment_os (pl : string) (comment : list string) (p : UserAgent) :
  getPlatform comment = Some pl ->
  os (fill_from_comment pl comment p) =
  (if pl == "Windows" then default "" (normalizeOS <$> comment !! 0) else os p)
  /\ (pl = "Windows" -> os (fill_from_comment pl comment p) <> "").
Proof.
  intros Hpl. unfold fill_from_comment. destruct comment as [|c0 rest].
  - injection Hpl as <-. split; [reflexivity | discriminate].
  - simpl. destruct (String.eqb_spec pl "Windows") as [->|Hne].
    + split; [reflexivity|]. intros _. simpl.
      apply normalizeOS_nonempty. exact (getPlatform_Windows_token _ _ Hpl).
    + split; [reflexivity | contradiction].
Qed.

(** X10: Firefox OS.  With a first section named "Mozilla", the engine
    "Gecko", a first token "Mobile" or "Tablet" and a second token other
    than "U" and "arm_64", [detectOS] gives the os "FirefoxOS" on a
    mobile record whose platform is the first token. *)
Theorem detectOS_FirefoxOS
    (p : UserAgent) (s : section) (rest : list section) (c0 c1 : string) :
  name s = "Mozilla" ->
  Browser.Engine (browser p) = "Gecko" ->
  comment s !! 0 = Some c0 -> comment s !! 1 = Some c1 ->
  c0 = "Mobile" \/ c0 = "Tablet" ->
  c1 <> "U" -> c1 <> "arm_64" ->
  exists p', detectOS p (s :: rest) = Some p'
    /\ platform p' = c0 /\ os p' = "FirefoxOS" /\ mobile p' = true.
Proof.
  intros Hn He H0 H1 Hc HU HA.
  destruct (detectOS_Mozilla p s rest Hn) as (pl & Hpl & ->).
  cbv zeta. rewrite He. change ("Gecko" == "") with false.
  change ("Gecko" == "Gecko") with true. cbv iota.
  destruct (comment s) as [|c0' cm] eqn:Hcm; [discriminate|].
  injection H0 as ->.
  assert (Hp0 : fill_from_comment pl (c0 :: cm) p = set_platform c0 p).
  { destruct Hc as [-> | ->]; injection Hpl as <-; reflexivity. }
  rewrite Hp0.
  destruct (gecko_not_U (set_platform c0 p) (c0 :: cm) c0 c1 eq_refl H1 HU HA)
    as (p' & Hg & _ & HF).
  exists p'. split; [exact Hg|].
  destruct HF as (Hm & Hos & Hplat); [|exact Hc|].
  - destruct Hc as [-> | ->]; reflexivity.
  - auto.
Qed.

Lemma detectOS_FirefoxOS_witness :
  exists p',
    detectOS (blank "Gecko" "Firefox")
      [mk_section "Mozilla" "5.0" ["Mobile"; "rv:26.0"]] = Some p'
    /\ platform p' = "Mobile" /\ os p' = "FirefoxOS" /\ mobile p' = true.
Proof.
  apply (detectOS_FirefoxOS (blank "Gecko" "Firefox")
           (mk_section "Mozilla" "5.0" ["Mobile"; "rv:26.0"]) []
           "Mobile" "rv:26.0");
    try reflexivity; try discriminate.
  left. reflexivity.
Defined.

(** X11: Firefox for Android.  With a first section named "Mozilla", the
    engine "Gecko", a platform that holds "Android" and a second token
    other than "U" and "arm_64", [detectOS] gives a mobile record whose
    os is the platform that [getPlatform] found and whose platform is
    the normalised second token. *)
Theorem detectOS_Firefox_Android
    (p : UserAgent) (s : section) (rest : list section) (pl c1 : string) :
  name s = "Mozilla" ->
  Browser.Engine (browser p) = "Gecko" ->
  getPlatform (comment s) = Some pl ->
  Contains pl "Android" = true ->
  comment s !! 1 = Some c1 ->
  c1 <> "U" -> c1 <> "arm_64" ->
  exists p', detectOS p (s :: rest) = Some p'
    /\ platform p' = normalizeOS c1 /\ os p' = pl /\ mobile p' = true.
Proof.
  intros Hn He Hpl HAnd H1 HU HA.
  destruct (detectOS_Mozilla p s rest Hn) as (pl' & Hpl' & ->).
  rewrite Hpl in Hpl'. injection Hpl' as <-.
  cbv zeta. rewrite He. change ("Gecko" == "") with false.
  change ("Gecko" == "Gecko") with true. cbv iota.
  destruct (comment s) as [|c0 cm] eqn:Hcm; [discriminate|].
  assert (Hp0 : fill_from_comment pl (c0 :: cm) p = set_platform pl p).
  { unfold fill_from_comment.
    destruct (String.eqb_spec pl "Windows") as [->|_]; [|reflexivity].
    vm_compute in HAnd. discriminate. }
  rewrite Hp0.
  destruct (gecko_not_U (set_platform pl p) (c0 :: cm) c0 c1 eq_refl H1 HU HA)
    as (p' & Hg & HS & _).
  exists p'. split; [exact Hg|].
  destruct (HS HAnd) as (Hm & Hplat & Hos). auto.
Qed.

Lemma detectOS_Firefox_Android_witness :
  exists p',
    detectOS (blank "Gecko" "Firefox")
      [mk_section "Mozilla" "5.0" ["Android"; "Mobile"; "rv:40.0"]] = Some p'
    /\ platform p' = "Mobile" /\ os p' = "Android" /\ mobile p' = true.
Proof.
  apply (detectOS_Firefox_Android (blank "Gecko" "Firefox")
           (mk_section "Mozilla" "5.0" ["Android"; "Mobile"; "rv:40.0"]) []
           "Android" "Mobile");
    try reflexivity; discriminate.
Defined.

(** X12: WebKit.  With a first section named "Mozilla" and the engine
    "AppleWebKit", the platform of the result is the one [getPlatform]
    found; the os is the normalised first token on Windows, and
    otherwise the normalised second token (empty without one) unless the
    record came with an os, which is then kept. *)
Theorem detectOS_webkit_platform_os
    (p : UserAgent) (s : section) (rest : list section) :
  name s = "Mozilla" ->
  Browser.Engine (browser p) = "AppleWebKit" ->
  exists pl p',
    getPlatform (comment s) = Some pl
    /\ detectOS p (s :: rest) = Some p'
    /\ platform p' = pl
    /\ os p' =
       (if pl == "Windows" then default "" (normalizeOS <$> comment s !! 0)
        else if os p == "" then default "" (normalizeOS <$> comment s !! 1)
        else os p).
Proof.
  intros Hn He.
  destruct (detectOS_Mozilla p s rest Hn) as (pl & Hpl & ->).
  exists pl. cbv zeta. rewrite He.
  change ("AppleWebKit" == "") with false.
  change ("AppleWebKit" == "Gecko") with false.
  change ("AppleWebKit" == "AppleWebKit") with true. cbv iota.
  rewrite (webkit_steps _ _ _ Hpl).
  eexists. split; [exact Hpl|]. split; [reflexivity|].
  destruct (fill_from_comment_frame pl (comment s) p) as (_ & Hplat & _).
  destruct (fill_from_comment_os pl (comment s) p Hpl) as (Hos & Hne).
  split.
  - rewrite (proj2 (browser_of_sections_frame _ _)), webkit_wv_platform.
    simpl. rewrite Hplat. now destruct (pl == "").
  - rewrite browser_of_sections_os, webkit_wv_os. simpl.
    destruct (String.eqb_spec pl "Windows") as [HW|HW].
    + specialize (Hne HW). apply String.eqb_neq in Hne. rewrite Hne. exact Hos.
    + rewrite Hos. destruct (String.eqb_spec (os p) "") as [E|_]; [|reflexivity].
      rewrite E. now destruct (comment s !! 1).
Qed.

Lemma detectOS_webkit_platform_os_witness :
  exists p',
    detectOS (blank "AppleWebKit" "Safari")
      [mk_section "Mozilla" "5.0" ["Macintosh"; "Intel Mac OS X 10_15_7"]]
    = Some p'
    /\ platform p' = "Macintosh" /\ os p' = "Intel Mac OS X 10_15_7".
Proof.
  destruct (detectOS_webkit_platform_os (blank "AppleWebKit" "Safari")
              (mk_section "Mozilla" "5.0" ["Macintosh"; "Intel Mac OS X 10_15_7"])
              [] eq_refl eq_refl)
    as (pl & p' & Hpl & Hd & Hp & Hos).
  injection Hpl as <-.
  exists p'. split; [exact Hd|]. split; [exact Hp | exact Hos].
Defined.

(** X13: Internet Explorer.  With a first section named "Mozilla" and
    the engine "Trident", the platform of the result is "Windows"; the
    os is the normalised first token when that token names Windows, and
    otherwise the normalised third token, or "Windows NT 4.0" without
    one, unless the record came with an os, which is then kept. *)
Theorem detectOS_trident_os
    (p : UserAgent) (s : section) (rest : list section) :
  name s = "Mozilla" ->
  Browser.Engine (browser p) = "Trident" ->
  exists pl p',
    getPlatform (comment s) = Some pl
    /\ detectOS p (s :: rest) = Some p'
    /\ platform p' = "Windows"
    /\ os p' =
       (if pl == "Windows" then default "" (normalizeOS <$> comment s !! 0)
        else if os p == "" then
          match comment s !! 2 with
          | Some c2 => normalizeOS c2
          | None => "Windows NT 4.0"
          end
        else os p)
    /\ mobile p' = (if existsb is_IEMobile (comment s) then true else mobile p).
Proof.
  intros Hn He.
  destruct (detectOS_Mozilla p s rest Hn) as (pl & Hpl & ->).
  exists pl. cbv zeta. rewrite He.
  change ("Trident" == "") with false.
  change ("Trident" == "Gecko") with false.
  change ("Trident" == "AppleWebKit") with false.
  change ("Trident" == "Trident") with true. cbv iota.
  rewrite trident_eq.
  eexists. split; [exact Hpl|]. split; [reflexivity|].
  destruct (fill_from_comment_frame pl (comment s) p) as ((_ & _ & _ & _) & _).
  destruct (fill_from_comment_os pl (comment s) p Hpl) as (Hos & Hne).
  match goal with
  | |- context [trident_mobile ?q ?c] =>
      destruct (trident_mobile_fields q c) as [-> ->];
      rewrite (trident_mobile_spec q c)
  end.
  assert (Hmob : mobile (fill_from_comment pl (comment s) p) = mobile p).
  { unfold fill_from_comment.
    destruct (comment s); [|destruct (pl == "Windows")]; reflexivity. }
  destruct (String.eqb_spec pl "Windows") as [HW|HW].
  - specialize (Hne HW). apply String.eqb_neq in Hne. rewrite Hne.
    split; [reflexivity|]. split; [exact Hos|].
    destruct (existsb _ _); [reflexivity | exact Hmob].
  - rewrite Hos.
    destruct (os p == ""); (split; [reflexivity|]);
      (split; [first [reflexivity | exact Hos]|]);
      destruct (existsb _ _); try reflexivity; exact Hmob.
Qed.

Lemma detectOS_trident_os_witness :
  exists p',
    detectOS (blank "Trident" "Internet Explorer")
      [mk_section "Mozilla" "4.0"
         ["compatible"; "MSIE 8.0"; "Windows NT 6.1"; "Trident/4.0"]]
    = Some p'
    /\ platform p' = "Windows" /\ os p' = "Windows 7".
Proof.
  destruct (detectOS_trident_os (blank "Trident" "Internet Explorer")
              (mk_section "Mozilla" "4.0"
                 ["compatible"; "MSIE 8.0"; "Windows NT 6.1"; "Trident/4.0"])
              [] eq_refl eq_refl)
    as (pl & p' & Hpl & Hd & Hp & Hos & _).
  injection Hpl as <-.
  exists p'. split; [exact Hd|]. split; [exact Hp | exact Hos].
Defined.

(** ** One-byte separators *)

Section OneByte.

Variable a : ascii.

Let sep : string := String a EmptyString.

Lemma HasPrefix_byte (c : ascii) (s : string) :
  HasPrefix (String c s) sep = (c =? a)%char.
Proof.
  unfold HasPrefix, sep. cbn [String.prefix].
  destruct (ascii_dec a c) as [<-|Hne].
  - rewrite Ascii.eqb_refl. destruct s; reflexivity.
  - symmetry. apply Ascii.eqb_neq. congruence.
Qed.

Lemma Index_byte_cons (c : ascii) (s : string) :
  Index (String c s) sep =
  if (c =? a)%char then Some 0 else S <$> Index s sep.
Proof. cbn [Index]. rewrite HasPrefix_byte. reflexivity. Qed.

Lemma Index_byte_nil : Index "" sep = None.
Proof. reflexivity. Qed.

Lemma length_from (n : nat) (s : string) :
  String.length (from n s) = String.length s - n.
Proof.
  revert s. induction n as [|n IH]; intros [|c s]; cbn [from String.length];
    first [apply IH | lia].
Qed.

Lemma Index_byte_None (s : string) :
  Index s sep = None ->
  occurrences a s = 0 /\ forall b, subst_byte a b s = s.
Proof.
  induction s as [|c s IH]; [split; reflexivity|].
  rewrite Index_byte_cons. cbn [occurrences subst_byte].
  destruct (c =? a)%char; [discriminate|].
  destruct (Index s sep); [discriminate|]. intros _.
  destruct (IH eq_refl) as [Ho Hs]. split; [exact Ho|].
  intros b. now rewrite Hs.
Qed.

Lemma Index_byte_Some (s : string) (j : nat) :
  Index s sep = Some j ->
  occurrences a s = S (occurrences a (from (j + 1) s))
  /\ forall b, subst_byte a b s =
               (upto j s ++ String b (subst_byte a b (from (j + 1) s)))%string.
Proof.
  revert j. induction s as [|c s IH]; intros j; [discriminate|].
  rewrite Index_byte_cons. cbn [occurrences subst_byte].
  destruct (c =? a)%char.
  - intros [= <-]. split; reflexivity.
  - destruct (Index s sep) as [k|]; [|discriminate]. intros [= <-].
    destruct (IH k eq_refl) as [Ho Hs]. split; [exact Ho|].
    intros b. cbn [upto from Nat.add append]. now rewrite Hs.
Qed.

Lemma count_loop_byte (k : nat) (s : string) :
  String.length s <= k -> count_loop k s sep = occurrences a s.
Proof.
  revert s. induction k as [|k IH]; intros s Hk.
  - destruct s; [reflexivity | cbn in Hk; lia].
  - cbn [count_loop]. destruct (Index s sep) as [j|] eqn:Hj.
    + destruct (Index_byte_Some _ _ Hj) as [-> _]. f_equal.
      unfold sep at 1. cbn [String.length]. apply IH.
      rewrite length_from.
      destruct s; [discriminate Hj | cbn in Hk |- *; lia].
    + now destruct (Index_byte_None _ Hj) as [-> _].
Qed.

Lemma Count_byte (s : string) : Count s sep = occurrences a s.
Proof. unfold Count. apply count_loop_byte. lia. Qed.

Lemma replace_loop_byte (b : ascii) (k : nat) (s : string) :
  occurrences a s <= k ->
  replace_loop k s sep (String b EmptyString) = subst_byte a b s.
Proof.
  revert s. induction k as [|k IH]; intros s Hk; cbn [replace_loop].
  - destruct (Index s sep) as [j|] eqn:Hj.
    + destruct (Index_byte_Some _ _ Hj) as [Ho _]. lia.
    + now destruct (Index_byte_None _ Hj) as [_ ->].
  - destruct (Index s sep) as [j|] eqn:Hj.
    + destruct (Index_byte_Some _ _ Hj) as [Ho ->].
      unfold sep at 1. cbn [String.length append]. rewrite IH; [reflexivity | lia].
    + now destruct (Index_byte_None _ Hj) as [_ ->].
Qed.

(** [Replace] of one byte by another, everywhere. *)
Lemma Replace_byte_all (b : ascii) (s : string) :
  a <> b -> Replace s sep (String b EmptyString) (-1) = subst_byte a b s.
Proof.
  intros Hab. unfold Replace.
  assert (E : (sep == String b EmptyString) = false).
  { apply String.eqb_neq. unfold sep. congruence. }
  rewrite E. cbn [orb Z.eqb Z.ltb Z.compare]. rewrite Count_byte.
  destruct (occurrences a s =? 0) eqn:H0.
  - apply Nat.eqb_eq in H0. symmetry.
    clear E. induction s as [|c s IH]; [reflexivity|].
    cbn [occurrences subst_byte] in *.
    destruct (c =? a)%char; [discriminate|]. now rewrite IH.
  - apply replace_loop_byte. lia.
Qed.

Lemma subst_byte_clean (b : ascii) (s : string) :
  a <> b -> Contains (subst_byte a b s) sep = false.
Proof.
  intros Hab. unfold Contains.
  induction s as [|c s IH]; [reflexivity|].
  cbn [subst_byte]. rewrite Index_byte_cons.
  destruct (Ascii.eqb_spec c a) as [->|Hc].
  - destruct (Ascii.eqb_spec b a); [congruence|].
    destruct (Index _ sep); [discriminate | reflexivity].
  - destruct (Ascii.eqb_spec c a); [contradiction|].
    destruct (Index _ sep); [discriminate | reflexivity].
Qed.

End OneByte.

(** ** Splitting and joining *)

Section SplitJoin.

Lemma split_loop_cons (k : nat) (s sep : string) :
  exists x l, split_loop k s sep = x :: l.
Proof.
  destruct k as [|k]; cbn [split_loop]; [eauto|].
  destruct (Index s sep); eauto.
Qed.

Lemma Split_unfold (s sep : string) :
  sep <> "" ->
  Split s sep =
  split_loop (Nat.min (S (Count s sep)) (S (String.length s)) - 1) s sep.
Proof.
  intros Hsep. unfold Split, genSplit.
  apply String.eqb_neq in Hsep. now rewrite Hsep.
Qed.

Lemma Split_cons (s sep : string) :
  sep <> "" -> exists x l, Split s sep = x :: l.
Proof. intros Hsep. rewrite (Split_unfold _ _ Hsep). apply split_loop_cons. Qed.

(** Without the separator there is one part, the string itself. *)
Lemma Split_absent (s sep : string) :
  sep <> "" -> Contains s sep = false -> Split s sep = [s].
Proof.
  intros Hsep Hc. rewrite (Split_unfold _ _ Hsep).
  unfold Contains in Hc. destruct (Index s sep) eqn:Hj; [discriminate|].
  destruct (Nat.min _ _ - 1); cbn [split_loop]; [reflexivity | now rewrite Hj].
Qed.

(** With the separator there are two parts at least. *)
Lemma Split_present (s sep : string) :
  sep <> "" -> Contains s sep = true ->
  exists x y l, Split s sep = x :: y :: l.
Proof.
  intros Hsep Hc. rewrite (Split_unfold _ _ Hsep).
  unfold Contains in Hc. destruct (Index s sep) as [j|] eqn:Hj; [|discriminate].
  assert (Hcount : exists c, Count s sep = S c /\ exists n, String.length s = S n).
  { unfold Count. apply String.eqb_neq in Hsep. rewrite Hsep.
    destruct s as [|c0 s].
    - destruct sep; [now apply String.eqb_neq in Hsep | discriminate Hj].
    - cbn [String.length count_loop]. rewrite Hj. eauto. }
  destruct Hcount as (c & -> & n & ->).
  replace (Nat.min (S (S c)) (S (S n)) - 1) with (S (Nat.min c n)) by lia.
  cbn [split_loop]. rewrite Hj.
  destruct (split_loop_cons (Nat.min c n) (from (j + String.length sep) s) sep)
    as (y & l & ->).
  eauto.
Qed.

Lemma Replace_absent (s old new : string) (n : Z) :
  Contains s old = false -> Replace s old new n = s.
Proof.
  intros Hc. unfold Replace.
  destruct ((old == new) || (n =? 0)%Z || (old == "")) eqn:E; [reflexivity|].
  apply orb_false_iff in E as [_ E]. unfold Count. rewrite E.
  unfold Contains in Hc. destruct (Index s old) eqn:Hj; [discriminate|].
  destruct (String.length s); cbn [count_loop]; [reflexivity | now rewrite Hj].
Qed.

Lemma Trim_no_space (s : string) :
  Contains s " " = false -> Trim s " " = s.
Proof.
  intros Hc.
  assert (Hall : TrimLeft s " " = s /\ TrimRight s " " = s).
  { induction s as [|c s IH]; [split; reflexivity|].
    unfold Contains in Hc. rewrite Index_space_cons in Hc.
    destruct (c =? " ")%char eqn:Hcs; [discriminate|].
    assert (Hs : Contains s " " = false).
    { unfold Contains. destruct (Index s " "); [discriminate | reflexivity]. }
    destruct (IH Hs) as [_ Hr].
    cbn [TrimLeft TrimRight mem]. rewrite Hr, Hcs.
    cbn [orb]. rewrite andb_false_r. split; reflexivity. }
  unfold Trim. destruct Hall as [-> ->]. reflexivity.
Qed.

Lemma append_assoc_s (x y z : string) :
  ((x ++ y) ++ z = x ++ y ++ z)%string.
Proof. induction x as [|c x IH]; cbn; [reflexivity | now rewrite IH]. Qed.

Lemma Join_snoc (init : list string) (v sep : string) :
  init <> [] ->
  Join (init ++ [v]) sep = (Join init sep ++ sep ++ v)%string.
Proof.
  induction init as [|a init IH]; [contradiction|]. intros _.
  destruct init as [|b init]; [reflexivity|].
  change (Join ((a :: b :: init) ++ [v]) sep)
    with (a ++ sep ++ Join ((b :: init) ++ [v]) sep)%string.
  rewrite IH by discriminate.
  change (Join (a :: b :: init) sep)
    with (a ++ sep ++ Join (b :: init) sep)%string.
  now rewrite !append_assoc_s.
Qed.

End SplitJoin.

(** ** The splitter *)

(** [osName] on two tokens or more: the last token is the candidate
    version, the others make the name. *)
Lemma osName_snoc (init : list string) (v : string) :
  init <> [] ->
  osName (init ++ [v]) =
  let nameSplit :=
    match init with
    | a :: b :: r => if (a == "Intel") && (b == "Mac") then b :: r else init
    | _ => init
    end in
  let name := Join nameSplit " " in
  Some (if Contains v "x86" || Contains v "i686" then (name, "")
        else if (v == "X") && (name == "Mac OS")
             then ((name ++ " " ++ v)%string, "")
             else (name, v)).
Proof.
  intros Hne. unfold osName.
  assert (Hlen : length (init ++ [v]) = S (length init))
    by (rewrite List.length_app; simpl; lia).
  assert (H1 : (length (init ++ [v]) =? 1) = false).
  { apply Nat.eqb_neq. destruct init; [contradiction | simpl in *; lia]. }
  rewrite H1.
  replace (Z.of_nat (length (init ++ [v])) - 1)%Z with (Z.of_nat (length init))
    by lia.
  unfold slice_to, at_Z.
  replace (Z.of_nat (length init) <? 0)%Z with false by (symmetry; lia).
  replace (Z.of_nat (length (init ++ [v])) <? Z.of_nat (length init))%Z
    with false by (symmetry; lia).
  rewrite Nat2Z.id, take_app_length.
  rewrite (list_lookup_middle init [] v (length init) eq_refl).
  destruct init as [|a [|b r]]; [contradiction|..]; simpl.
  - destruct (Contains v "x86" || Contains v "i686"); [reflexivity|].
    destruct ((v == "X") && (a == "Mac OS")); reflexivity.
  - destruct (a == "Intel"); simpl; [destruct (b == "Mac"); simpl|];
      destruct (Contains v "x86" || Contains v "i686"); try reflexivity;
      match goal with
      | |- context [(v == "X") && ?t] => destruct ((v == "X") && t)
      end; reflexivity.
Qed.

Lemma list_snoc_cases (l : list string) :
  l = [] \/ (exists x, l = [x])
  \/ exists init v, init <> [] /\ l = (init ++ [v])%list.
Proof.
  destruct l as [|x l]; [auto|]. right.
  destruct l as [|y l] using rev_ind; [eauto|].
  right. exists (x :: l), y. split; [discriminate | reflexivity].
Qed.

Lemma osName_total (osSplit : list string) :
  osSplit <> [] -> is_Some (osName osSplit).
Proof.
  intros Hne.
  destruct (list_snoc_cases osSplit) as [E|[[x ->]|(init & v & Hi & ->)]];
    [contradiction | eexists; reflexivity |].
  rewrite (osName_snoc _ _ Hi). eexists; reflexivity.
Qed.

#[local] Arguments osName : simpl never.
#[local] Arguments Split : simpl never.
#[local] Arguments Replace : simpl never.

(** [OSInfo] always comes to an end: the full name is the raw os and the
    version has gone through the replacement of its underscores. *)
Lemma OSInfo_form (p : UserAgent) :
  exists name version,
    OSInfo p = Some (OSInfo.mk (os p) name (Replace version "_" "." (-1))).
Proof.
  unfold OSInfo.
  remember (Trim (Replace (Replace (os p) "like Mac OS X" "" 1) "CPU" "" 1) " ")
    as os_ eqn:Hos_. clear Hos_.
  destruct (String.eqb_spec os_ "Windows XP x64 Edition") as [->|_].
  - exists "Windows", "XP". reflexivity.
  - destruct (Split_cons os_ " ") as (x & l & ->); [discriminate|].
    simpl.
    destruct (osName_total (x :: l)) as [[name version] ->]; [discriminate|].
    simpl.
    destruct (Contains name "/") eqn:Hslash.
    + destruct (Split_present name "/") as (a & b & r & ->);
        [discriminate | exact Hslash |].
      simpl. eauto.
    + simpl. eauto.
Qed.

Lemma prefix_app (a s : string) :
  String.prefix a s = true -> exists r, s = (a ++ r)%string.
Proof.
  revert s. induction a as [|c a IH]; intros s; [eauto|].
  destruct s as [|d s]; cbn [String.prefix]; [discriminate|].
  destruct (ascii_dec c d) as [<-|]; [|discriminate].
  intros H. destruct (IH s H) as [r ->]. eauto.
Qed.

Lemma Index_Some_app (s old : string) (j : nat) :
  Index s old = Some j -> exists x r, s = (x ++ old ++ r)%string.
Proof.
  revert j. induction s as [|c s IH]; intros j; cbn [Index].
  - destruct (HasPrefix "" old) eqn:Hp; [|discriminate]. intros _.
    destruct (prefix_app _ _ Hp) as [r ->]. exists "", r. reflexivity.
  - destruct (HasPrefix (String c s) old) eqn:Hp.
    + intros _. destruct (prefix_app _ _ Hp) as [r ->]. exists "", r. reflexivity.
    + destruct (Index s old) as [k|]; [|discriminate]. intros _.
      destruct (IH k eq_refl) as (x & r & ->). exists (String c x), r. reflexivity.
Qed.

Lemma Contains_space_app (x y : string) :
  Contains (x ++ String " " y) " " = true.
Proof.
  unfold Contains. induction x as [|c x IH]; cbn [append];
    rewrite Index_space_cons; [reflexivity|].
  destruct (c =? " ")%char; [reflexivity|].
  destruct (Index (x ++ String " " y) " "); [reflexivity | discriminate].
Qed.

Lemma no_space_no_like_Mac (t : string) :
  Contains t " " = false -> Contains t "like Mac OS X" = false.
Proof.
  intros Hs. unfold Contains.
  destruct (Index t "like Mac OS X") as [j|] eqn:Hj; [|reflexivity].
  destruct (Index_Some_app _ _ _ Hj) as (x & r & ->).
  change (x ++ "like Mac OS X" ++ r)%string
    with (x ++ "like" ++ String " " ("Mac OS X" ++ r))%string in Hs.
  rewrite <- append_assoc_s, Contains_space_app in Hs. discriminate.
Qed.

(** X14: [OSInfo] never fails, whatever the os: the splitter finds a
    token where it indexes.  ([osName] itself fails on an empty list,
    which [OSInfo] never hands it.)  The full name of the result is what
    [OS] returns. *)
Theorem OSInfo_total (p : UserAgent) :
  osName [] = None
  /\ exists i, OSInfo p = Some i /\ OSInfo.FullName i = OS p.
Proof.
  split; [reflexivity|].
  destruct (OSInfo_form p) as (name & version & ->).
  eexists. split; reflexivity.
Qed.

(** X15: the version that [OSInfo] returns holds no underscore. *)
Theorem OSInfo_version_no_underscore (p : UserAgent) :
  exists i, OSInfo p = Some i /\ Contains (OSInfo.Version i) "_" = false.
Proof.
  destruct (OSInfo_form p) as (name & version & ->).
  eexists. split; [reflexivity|]. simpl.
  rewrite (Replace_byte_all "_" "." version) by discriminate.
  apply subst_byte_clean. discriminate.
Qed.

(** X16: the version that [osName] returns is empty or the last token;
    it never holds "x86" or "i686", and it is never "X" beside the name
    "Mac OS". *)
Theorem osName_version (osSplit : list string) (name version : string) :
  osName osSplit = Some (name, version) ->
  (version = "" \/ last osSplit = Some version)
  /\ Contains version "x86" = false
  /\ Contains version "i686" = false
  /\ ~ (name = "Mac OS" /\ version = "X").
Proof.
  destruct (list_snoc_cases osSplit) as [->|[[x ->]|(init & v & Hi & ->)]].
  - discriminate.
  - intros [= <- <-]. repeat split; auto. intros [_ H]; discriminate H.
  - rewrite (osName_snoc _ _ Hi). cbv zeta.
    destruct (Contains v "x86" || Contains v "i686") eqn:Harch;
      [|destruct ((v == "X") && (_ == "Mac OS")) eqn:HX];
      intros [= <- <-].
    + repeat split; auto. intros [_ H]; discriminate H.
    + repeat split; auto. intros [_ H]; discriminate H.
    + apply orb_false_iff in Harch as [H86 H686].
      split; [right; apply last_snoc|]. split; [exact H86|].
      split; [exact H686|].
      intros [Hn Hv]. rewrite Hn, Hv in HX. discriminate HX.
Qed.

Lemma osName_version_witness :
  osName ["Linux"; "x86_64"] = Some ("Linux", "")
  /\ osName ["Intel"; "Mac"; "OS"; "X"] = Some ("Mac OS X", "")
  /\ Contains "" "x86" = false.
Proof.
  split; [reflexivity|]. split; [reflexivity|].
  exact (proj1 (proj2 (osName_version ["Linux"; "x86_64"] "Linux" "" eq_refl))).
Defined.

(** X17: when [osName] returns a version, name and version joined by a
    space give back the tokens joined by spaces; the one exception is an
    input of three tokens or more that starts with "Intel", "Mac": there
    [osName] drops the "Intel", and the tokens joined are "Intel "
    followed by name, space, version. *)
Theorem osName_join (osSplit : list string) (name version : string) :
  osName osSplit = Some (name, version) ->
  version <> "" ->
  match osSplit with
  | a :: b :: _ :: _ =>
      if (a == "Intel") && (b == "Mac")
      then Join osSplit " " = ("Intel " ++ name ++ " " ++ version)%string
      else Join osSplit " " = (name ++ " " ++ version)%string
  | _ => Join osSplit " " = (name ++ " " ++ version)%string
  end.
Proof.
  destruct (list_snoc_cases osSplit) as [->|[[x ->]|(init & v & Hi & ->)]].
  - discriminate.
  - intros [= <- <-]. contradiction.
  - rewrite (osName_snoc _ _ Hi). cbv zeta.
    pose proof (Join_snoc init v " " Hi) as HJ.
    destruct (Contains v "x86" || Contains v "i686");
      [intros [= <- <-]; contradiction|].
    destruct ((v == "X") && (_ == "Mac OS"));
      [intros [= <- <-]; contradiction|].
    intros [= <- <-] _.
    destruct init as [|a [|b r]]; [contradiction | reflexivity |].
    assert (Hintel : Join ("Intel" :: b :: r) " "
                     = ("Intel " ++ Join (b :: r) " ")%string) by reflexivity.
    destruct r as [|c r]; cbn [app] in HJ |- *;
      (destruct (String.eqb_spec a "Intel") as [->|_]; cbn [andb];
       [destruct (b == "Mac")|]; rewrite HJ; try reflexivity;
       rewrite Hintel; now rewrite append_assoc_s).
Qed.

Lemma osName_join_witness :
  osName ["Intel"; "Mac"; "OS"; "X"; "10_6_8"] = Some ("Mac OS X", "10_6_8")
  /\ Join ["Intel"; "Mac"; "OS"; "X"; "10_6_8"] " " = "Intel Mac OS X 10_6_8"
  /\ osName ["Intel"; "Foo"; "1.0"] = Some ("Intel Foo", "1.0")
  /\ Join ["Intel"; "Foo"; "1.0"] " " = "Intel Foo 1.0".
Proof.
  split; [reflexivity|]. split; [|split; [reflexivity|]].
  - exact (osName_join ["Intel"; "Mac"; "OS"; "X"; "10_6_8"]
             "Mac OS X" "10_6_8" eq_refl ltac:(discriminate)).
  - exact (osName_join ["Intel"; "Foo"; "1.0"]
             "Intel Foo" "1.0" eq_refl ltac:(discriminate)).
Defined.

(** X18: for an os of one token (no space, no slash, no "CPU"), the
    empty os included, [OSInfo] returns the os as the name, with an
    empty version. *)
Theorem OSInfo_one_token (p : UserAgent) :
  Contains (os p) " " = false ->
  Contains (os p) "/" = false ->
  Contains (os p) "CPU" = false ->
  OSInfo p = Some (OSInfo.mk (os p) (os p) "").
Proof.
  intros Hsp Hsl Hcpu. unfold OSInfo.
  rewrite (Replace_absent _ _ _ _ (no_space_no_like_Mac _ Hsp)).
  rewrite (Replace_absent _ _ _ _ Hcpu), (Trim_no_space _ Hsp).
  destruct (String.eqb_spec (os p) "Windows XP x64 Edition") as [E|_].
  { rewrite E in Hsp. vm_compute in Hsp. discriminate. }
  rewrite (Split_absent _ " ") by (discriminate || exact Hsp).
  change (osName [os p]) with (Some (os p, "")). simpl.
  rewrite Hsl. reflexivity.
Qed.

Lemma OSInfo_one_token_witness :
  OSInfo (set_os "FirefoxOS" (blank "Gecko" "Firefox"))
  = Some (OSInfo.mk "FirefoxOS" "FirefoxOS" "")
  /\ OSInfo (blank "" "") = Some (OSInfo.mk "" "" "").
Proof.
  split.
  - exact (OSInfo_one_token (set_os "FirefoxOS" (blank "Gecko" "Firefox"))
             eq_refl eq_refl eq_refl).
  - exact (OSInfo_one_token (blank "" "") eq_refl eq_refl eq_refl).
Defined.
